(** * ServerLoader: the boot sequence of ts-express-decorators

    A shallow embedding of [src/server/components/ServerLoader.ts] and of
    [isEmpty] from [src/utils/utils.ts].

    The class is stateful and talks to Express, Node's http/https modules,
    the injector and the logger.  A method is modelled as a function from
    the receiver ([this], a [ServerLoader] record) to a [Run]: how the call
    completed, the receiver afterwards, and the calls it made on its
    collaborators, in order, as a list of [Event]s. *)

From Stdlib Require Import String Ascii List ZArith Bool Arith Lia DecimalString.
Import ListNotations.
Open Scope string_scope.
Open Scope list_scope.

Set Implicit Arguments.

(** ** JavaScript values *)

Unset Elimination Schemes.
Inductive JsFun : Type :=
| FNamed (name : string)        (* a function or class defined elsewhere *)
| FNoop                         (* [() => {}] and [new Function] *)
| FLogServerError (err : JsValue)
    (* [() => { $log.error("[TSED] HTTP Server error", err); }] in [start] *)
| FStaticGuard (dir : JsValue)
    (* the closure built per key by [mountStaticDirectories] *)
| FBound (f : JsFun)            (* [f.bind(this)] *)
| FBuilt (f : JsFun)            (* [HandlerBuilder.from(f).build()] *)
with JsValue : Type :=
| VUndefined
| VNull
| VBool (b : bool)
| VNum (n : Z)
| VNaN
| VStr (s : string)
| VFun (f : JsFun)
| VObj (fields : list (string * JsValue))
| VArr (items : list JsValue).
Set Elimination Schemes.

Inductive JsType := TUndefined | TObject | TBoolean | TNumber | TString | TFunction.

Definition typeof (v : JsValue) : JsType :=
  match v with
  | VUndefined => TUndefined
  | VNull => TObject
  | VBool _ => TBoolean
  | VNum _ | VNaN => TNumber
  | VStr _ => TString
  | VFun _ => TFunction
  | VObj _ | VArr _ => TObject
  end.

Definition is_function (v : JsValue) : bool :=
  match typeof v with TFunction => true | _ => false end.

(** The test of [if (v)], [a || b] and [!v]. *)
Definition truthy (v : JsValue) : bool :=
  match v with
  | VUndefined | VNull | VNaN => false
  | VBool b => b
  | VNum n => negb (n =? 0)%Z
  | VStr s => negb (s =? "")
  | VFun _ | VObj _ | VArr _ => true
  end.

(** [a || b] *)
Definition js_or (a b : JsValue) : JsValue := if truthy a then a else b.

(** utils.ts, [isEmpty]: [value === "" || value === null || value === undefined]. *)
Definition isEmpty (value : JsValue) : bool :=
  match value with
  | VStr s => s =? ""
  | VNull => true
  | VUndefined => true
  | _ => false
  end.

Fixpoint assoc (key : string) (fields : list (string * JsValue)) : option JsValue :=
  match fields with
  | [] => None
  | (k, v) :: rest => if k =? key then Some v else assoc key rest
  end.

(** The key of an array element or of a character: the index in decimal. *)
Definition index_string (i : nat) : string := NilZero.string_of_uint (Nat.to_uint i).

Definition indices (n : nat) : list string := map index_string (seq 0 n).

Fixpoint lookup_index (key : string) (items : list JsValue) (i : nat) : JsValue :=
  match items with
  | [] => VUndefined
  | item :: rest => if index_string i =? key then item else lookup_index key rest (S i)
  end.

Definition characters (s : string) : list JsValue :=
  map (fun c => VStr (String c EmptyString)) (list_ascii_of_string s).

(** [value[key]] for a string key, on a value that is neither [undefined] nor
    [null]: an own field of an object, an element of an array, a character of a
    string, their [length]; a missing property reads as [undefined].  The
    fields of an object are kept in the order [Object.keys] lists them. *)
Definition get_prop (value : JsValue) (key : string) : JsValue :=
  match value with
  | VObj fields => match assoc key fields with Some v => v | None => VUndefined end
  | VArr items =>
      if key =? "length" then VNum (Z.of_nat (length items))
      else lookup_index key items 0
  | VStr s =>
      if key =? "length" then VNum (Z.of_nat (String.length s))
      else lookup_index key (characters s) 0
  | _ => VUndefined
  end.

(** [Object.keys(value)]: the fields of an object, the indices of an array
    or of a string, nothing for the other values; [None] stands for the
    TypeError thrown on [undefined] and [null]. *)
Definition object_keys (value : JsValue) : option (list string) :=
  match value with
  | VUndefined | VNull => None
  | VObj fields => Some (map fst fields)
  | VArr items => Some (indices (length items))
  | VStr s => Some (indices (String.length s))
  | _ => Some []
  end.

(** Overwriting a key that is there; a missing key stays missing. *)
Fixpoint store_replace (key : string) (v : JsValue) (m : list (string * JsValue))
  : list (string * JsValue) :=
  match m with
  | [] => []
  | (k, old) :: rest =>
      if k =? key then (k, v) :: rest else (k, old) :: store_replace key v rest
  end.

(** Writing a key of a [Map] or a property of an object: an existing key keeps
    its place, a new key goes last. *)
Fixpoint store_set (key : string) (v : JsValue) (m : list (string * JsValue))
  : list (string * JsValue) :=
  match m with
  | [] => [(key, v)]
  | (k, old) :: rest =>
      if k =? key then (k, v) :: rest else (k, old) :: store_set key v rest
  end.

(** [Object.assign(target, source)] on field lists. *)
Definition assign_fields (target source : list (string * JsValue))
  : list (string * JsValue) :=
  fold_left (fun acc kv => store_set (fst kv) (snd kv) acc) source target.

(** [path.replace(/\\/gi, "/")]: every backslash becomes a slash. *)
Definition backslash : ascii := ascii_of_nat 92.
Definition slash : ascii := ascii_of_nat 47.

Fixpoint replace_backslashes (path : string) : string :=
  match path with
  | EmptyString => EmptyString
  | String c rest =>
      String (if Ascii.eqb c backslash then slash else c) (replace_backslashes rest)
  end.

(** ** Observable calls *)

Inductive LogLevel := Info | Debug | Error.

Inductive Listener := Http | Https.

(** A piece of a template literal: text, or a substituted value. *)
Inductive Piece := Txt (s : string) | Sub (v : JsValue).

Inductive Event :=
| ELog (level : LogLevel) (message : list Piece) (args : list JsValue)
| EInjectorFactory (token : string)
| EInjectorLoad
| EInjectorGet (token : string)
| EControllerLoad
| EPrintRoutes
| ECreateServer (l : Listener) (handle : nat) (options : JsValue)
| EListen (l : Listener) (handle : nat) (port address : JsValue)
| EOn (l : Listener) (handle : nat) (event : string)
| EAppUse (args : list JsValue)
| EAppSet (setting : string) (val : JsValue)
| EAppEngine (ext : string) (fn : JsValue)
| EGlob (pattern : string)
| ERequire (file : string)
| EMapTo (file : string) (endpoint : JsValue)
| EHook (name : string) (args : list JsValue)
| EForeignScan (path endpoint : JsValue).
    (* [scan] reached with a path object that brings its own [replace] method *)

(** ** The receiver *)

Record ServerLoader := mkServerLoader {
  _settings : list (string * JsValue);   (* the provider's key/value store *)
  _httpServer : option nat;              (* [undefined] or a server handle *)
  _httpsServer : option nat;
  _injectorService : bool;               (* has the injector been resolved? *)
  next_handle : nat                      (* handle of the next created server *)
}.

Definition set_settings (m : list (string * JsValue)) (s : ServerLoader) :=
  mkServerLoader m (_httpServer s) (_httpsServer s) (_injectorService s) (next_handle s).

(** ** Computations *)

Inductive Completion (A : Type) :=
| Normal (a : A)          (* returned; a promise fulfilled with [a] *)
| Throw (e : JsValue)     (* threw; a promise rejected with [e] *)
| Stall.                  (* an awaited promise that never settles *)
Arguments Normal {A} a.
Arguments Throw {A} e.
Arguments Stall {A}.

Record Run (A : Type) := mkRun {
  completion : Completion A;
  final : ServerLoader;
  trace : list Event
}.

Definition M (A : Type) := ServerLoader -> Run A.

Definition ret {A} (a : A) : M A := fun s => mkRun (Normal a) s [].

Definition throw {A} (e : JsValue) : M A := fun s => mkRun (Throw e) s [].

Definition and_then {A B} (m : M A) (k : A -> M B) : M B :=
  fun s =>
    let r := m s in
    match completion r with
    | Normal a =>
        let r' := k a (final r) in
        mkRun (completion r') (final r') (trace r ++ trace r')
    | Throw e => mkRun (Throw e) (final r) (trace r)
    | Stall => mkRun Stall (final r) (trace r)
    end.

(** [try { body } catch (err) { handler }] around awaited steps. *)
Definition try_catch {A} (body : M A) (handler : JsValue -> M A) : M A :=
  fun s =>
    let r := body s in
    match completion r with
    | Throw e =>
        let r' := handler e (final r) in
        mkRun (completion r') (final r') (trace r ++ trace r')
    | _ => r
    end.

Definition emit (e : Event) : M unit := fun s => mkRun (Normal tt) s [e].

Definition this : M ServerLoader := fun s => mkRun (Normal s) s [].

Definition modify (f : ServerLoader -> ServerLoader) : M unit :=
  fun s => mkRun (Normal tt) (f s) [].

Notation "x <- m ;; k" := (and_then m (fun x => k))
  (at level 61, m at next level, right associativity).
Notation "m ;; k" := (and_then m (fun _ => k))
  (at level 61, right associativity).

Definition log (level : LogLevel) (message : list Piece) (args : list JsValue) : M unit :=
  emit (ELog level message args).

(** [xs.forEach(f)]: a throw leaves the loop. *)
Fixpoint forEach {A} (xs : list A) (f : A -> M unit) : M unit :=
  match xs with
  | [] => ret tt
  | x :: rest => f x ;; forEach rest f
  end.

(** ** Collaborators that live outside this file

    [ServerSettingsProvider], [ServerSettingsService], [ControllerService],
    [InjectorService] and the [glob] and [serve-static] packages are used by
    the class and defined elsewhere.  What they answer is a parameter. *)

(** The view [getSettingsService()] returns. *)
Record ServerSettingsService := mkService {
  entries : list (string * JsValue);   (* the pairs [forEach] visits, in order *)
  mount_of : JsValue;                  (* [settingsService.mount] *)
  componentsScan : list string;        (* [settingsService.componentsScan] *)
  serveStatic : JsValue;               (* [settingsService.serveStatic] *)
  getHttpPort : JsValue * JsValue;     (* [{address, port}] *)
  getHttpsPort : JsValue * JsValue
}.

Record Collaborators := mkCollaborators {
  (* [this.settings.$get()], as registered and read back from the injector *)
  settings_service : list (string * JsValue) -> ServerSettingsService;
  (* [this._settings.set(settings)] *)
  provider_set : JsValue -> list (string * JsValue) -> list (string * JsValue);
  (* [this._settings.endpoint] *)
  settings_endpoint : list (string * JsValue) -> JsValue;
  (* [require("glob").sync(pattern)] *)
  glob_sync : string -> list string;
  (* [ControllerService.require(file).mapTo(endpoint)]: [Some er] when it throws [er] *)
  controller_import : string -> JsValue -> option JsValue;
  (* [require.resolve("serve-static")]: [Some er] when it throws [er] *)
  serve_static_missing : option JsValue;
  (* [InjectorService.load()] and [controllerService.load()]: [Some er] when they throw *)
  injector_load_error : option JsValue;
  controller_load_error : option JsValue;
  (* the store of a fresh [new ServerSettingsProvider()] *)
  provider_new : list (string * JsValue);
  (* Express: [app.use(...args)] and [app.engine(ext, fn)] check their
     arguments; [Some er] when the call throws [er] *)
  app_use_error : list JsValue -> option JsValue;
  app_engine_error : string -> JsValue -> option JsValue;
  (* Node: [Https.createServer(options, app)] checks the options; [Some er]
     when it throws [er] *)
  https_create_error : JsValue -> option JsValue;
  (* [scan(path, endpoint)] on a path object that has a [replace] method of
     its own: what that method, [glob] and the imports make of it is theirs;
     [Some er] when the call throws [er] *)
  foreign_scan_error : JsValue -> JsValue -> option JsValue
}.

(** The hooks a subclass may define.  The source spells them with a leading
    dollar sign ([$onInit], ...), which an identifier here cannot carry.  A
    hook is any computation on the receiver: it may return, throw, never settle,
    call back into the receiver and make calls of its own.  A hook is either
    missing or a method; a property of that name holding something else is not
    modelled. *)
Definition Hook := list JsValue -> M JsValue.

Record Subclass := mkSubclass {
  onInit : option Hook;
  importMiddlewares : option Hook;
  onMountingMiddlewares : option Hook;
  afterRoutesInit : option Hook;
  onReady : option Hook;
  onServerInitError : option Hook;
  onError : option JsFun;
  isAuthenticated : option JsFun;
  onAuth : option JsFun
}.

(** [key in this] for the keys [start] asks about. *)
Definition hook_of (K : Subclass) (key : string) : option Hook :=
  if key =? "$onInit" then onInit K
  else if key =? "$onReady" then onReady K
  else if key =? "$onServerInitError" then onServerInitError K
  else None.

Definition expressApp : JsValue := VFun (FNamed "express()").

(** ** Listener events and the promises that wait for them *)

Inductive Signal :=
| Listening                   (* the server emitted ["listening"] *)
| ErrorSignal (e : JsValue).  (* the server emitted ["error"] with [e] *)

Definition NetEvent : Type := Listener * Signal.

Inductive PromiseState := Pending | Fulfilled | Rejected (e : JsValue).

(** One [new Promise((resolve, reject) => server.on("listening", ...).on("error", reject))]
    pushed by [startServers], with what its ["listening"] handler logs. *)
Record Waiter := mkWaiter {
  w_listener : Listener;
  w_message : list Piece;
  w_state : PromiseState
}.

Definition Listener_eqb (a b : Listener) : bool :=
  match a, b with
  | Http, Http | Https, Https => true
  | _, _ => false
  end.

(** [resolve()] and [reject(e)] change a promise only while it is pending. *)
Definition settle (p : PromiseState) (sig : Signal) : PromiseState :=
  match p with
  | Pending => match sig with Listening => Fulfilled | ErrorSignal e => Rejected e end
  | _ => p
  end.

Definition deliver (ev : NetEvent) (w : Waiter) : Waiter :=
  if Listener_eqb (fst ev) (w_listener w)
  then mkWaiter (w_listener w) (w_message w) (settle (w_state w) (snd ev))
  else w.

(** What the handlers installed with [.on] log when [ev] is emitted. *)
Definition handler_logs (ev : NetEvent) (ws : list Waiter) : list Event :=
  flat_map (fun w =>
    if Listener_eqb (fst ev) (w_listener w)
    then match snd ev with
         | Listening => [ELog Info (w_message w) []]
         | ErrorSignal _ => []
         end
    else []) ws.

Fixpoint first_rejected (ws : list Waiter) : option JsValue :=
  match ws with
  | [] => None
  | w :: rest =>
      match w_state w with
      | Rejected e => Some e
      | _ => first_rejected rest
      end
  end.

Definition is_fulfilled (w : Waiter) : bool :=
  match w_state w with Fulfilled => true | _ => false end.

(** Where [Promise.all(promises)] stands: rejected as soon as one promise is,
    fulfilled with the array of results once all are. *)
Definition verdict (ws : list Waiter) : option (Completion JsValue) :=
  match first_rejected ws with
  | Some e => Some (Throw e)
  | None =>
      if forallb is_fulfilled ws
      then Some (Normal (VArr (map (fun _ => VUndefined) ws)))
      else None
  end.

(** Awaiting [Promise.all(promises)] while the servers emit [net], in that
    order.  Events after the aggregate has settled are not consumed. *)
Fixpoint await_all (ws : list Waiter) (net : list NetEvent)
  : Completion JsValue * list Event :=
  match verdict ws with
  | Some c => (c, [])
  | None =>
      match net with
      | [] => (Stall, [])
      | ev :: rest =>
          let r := await_all (map (deliver ev) ws) rest in
          (fst r, handler_logs ev ws ++ snd r)
      end
  end.

Section Methods.

Variable C : Collaborators.
Variable K : Subclass.

(** [getSettingsService()] *)
Definition getSettingsService : M ServerSettingsService :=
  emit (EInjectorFactory "ServerSettingsService") ;;
  s <- this ;;
  ret (settings_service C (_settings s)).

(** [createHttpServer(port)] *)
Definition createHttpServer (port : JsValue) : M ServerLoader :=
  s <- this ;;
  emit (ECreateServer Http (next_handle s) VUndefined) ;;
  modify (fun s => mkServerLoader (_settings s) (Some (next_handle s)) (_httpsServer s)
                     (_injectorService s) (S (next_handle s))) ;;
  modify (fun s => set_settings (store_set "httpPort" port (_settings s)) s) ;;
  this.

Definition raise_if (error : option JsValue) : M unit :=
  match error with
  | Some er => throw er
  | None => ret tt
  end.

(** [createHttpsServer(options)]; [options] is an object, as its type says.
    A throw of [Https.createServer] leaves the receiver as it was. *)
Definition createHttpsServer (options : JsValue) : M ServerLoader :=
  s <- this ;;
  raise_if (https_create_error C options) ;;
  emit (ECreateServer Https (next_handle s) options) ;;
  modify (fun s => mkServerLoader (_settings s) (_httpServer s) (Some (next_handle s))
                     (_injectorService s) (S (next_handle s))) ;;
  modify (fun s => set_settings (store_set "httpsPort" (get_prop options "port") (_settings s)) s) ;;
  this.

(** [HandlerBuilder.from(arg).build()] applied to the function arguments. *)
Definition HandlerBuilder_build (arg : JsValue) : JsValue :=
  match arg with
  | VFun f => VFun (FBuilt f)
  | _ => arg
  end.

(** The callback of [args.map] in [use]. *)
Definition wrap_arg (arg : JsValue) : JsValue :=
  if is_function arg then HandlerBuilder_build arg else arg.

(** [use(...args)]: the call [this.expressApp.use(...args)] is made in any
    case, and what Express throws is not caught. *)
Definition use (args : list JsValue) : M ServerLoader :=
  s <- this ;;
  args <- (if _injectorService s
           then emit (EInjectorGet "MiddlewareService") ;; ret (map wrap_arg args)
           else ret args) ;;
  emit (EAppUse args) ;;
  raise_if (app_use_error C args) ;;
  this.

(** [set(setting, val)] and [engine(ext, fn)] *)
Definition set (setting : string) (val : JsValue) : M ServerLoader :=
  emit (EAppSet setting val) ;; this.


(** The body of [files.forEach] in [scan]; [nbFiles] is the counter the loop
    increments. *)
Fixpoint scan_files (files : list string) (endpoint : JsValue) (nbFiles : nat) : M nat :=
  match files with
  | [] => ret nbFiles
  | file :: rest =>
      let nbFiles := S nbFiles in
      log Debug [Txt "[TSED] Import file "; Sub endpoint; Txt ":"] [VStr file] ;;
      emit (ERequire file) ;;
      match controller_import C file endpoint with
      | None => emit (EMapTo file endpoint)
      | Some er => log Error [] [er]
      end ;;
      scan_files rest endpoint nbFiles
  end.

(** [scan(path, endpoint = this._settings.endpoint)] *)
Definition scan (path : string) (endpoint : JsValue) : M ServerLoader :=
  s <- this ;;
  let endpoint :=
    match endpoint with
    | VUndefined => settings_endpoint C (_settings s)
    | _ => endpoint
    end in
  emit (EGlob (replace_backslashes path)) ;;
  let files := glob_sync C (replace_backslashes path) in
  log Info [Txt ("[TSED] Scan files : " ++ path)%string] [] ;;
  _ <- scan_files files endpoint 0 ;;
  this.

(** [mount(endpoint, path)] *)
Definition mount (endpoint : string) (path : string) : M ServerLoader :=
  _ <- scan path (VStr endpoint) ;;
  this.




(** A [TypeError]; its message is the engine's and is not kept. *)
Definition TypeError : JsValue := VObj [("name", VStr "TypeError")].

(** The callback of [Object.keys(mountDirectories).forEach]. *)
Definition mount_one (mountDirectories : JsValue) (key : string) : M unit :=
  _ <- use [VStr key; VFun (FStaticGuard (get_prop mountDirectories key))] ;;
  ret tt.

(** [mountStaticDirectories(mountDirectories)] *)
Definition mountStaticDirectories (mountDirectories : JsValue) : M ServerLoader :=
  (if truthy mountDirectories then
     match serve_static_missing C with
     | Some er => throw er
     | None =>
         match object_keys mountDirectories with
         | Some keys => forEach keys (mount_one mountDirectories)
         | None => throw TypeError
         end
     end
   else ret tt) ;;
  this.

(** Does [path.replace] find a method?  Strings apart, only an object that
    carries a callable [replace] field does. *)
Definition has_replace_method (path : JsValue) : bool :=
  is_function (get_prop path "replace").

(** [this.mount(key, value[key])] from untyped settings.  [scan] starts with
    [path.replace(...)]: on a string it goes on as usual; on [undefined],
    [null] and any value without a [replace] method it throws a TypeError
    before anything else; on an object with a [replace] method of its own the
    rest of the call is that method's and the collaborators' business. *)
Definition mount_value (endpoint : string) (path : JsValue) : M unit :=
  match path with
  | VStr p => _ <- mount endpoint p ;; ret tt
  | _ =>
      if has_replace_method path
      then emit (EForeignScan path (VStr endpoint)) ;;
           raise_if (foreign_scan_error C path (VStr endpoint))
      else throw TypeError
  end.

(** [Object.assign(map.get("httpsOptions") || {}, {port: value})].  The
    options are typed as a plain object.  A truthy number or boolean is
    wrapped in an object without fields and a string in one that has its
    characters; an array or a function, which would receive the field itself,
    is taken as an object without fields. *)
Definition https_options (map : list (string * JsValue)) (value : JsValue) : JsValue :=
  let target :=
    js_or (match assoc "httpsOptions" map with Some v => v | None => VUndefined end)
          (VObj []) in
  match target with
  | VObj fields => VObj (assign_fields fields [("port", value)])
  | VStr s =>
      VObj (assign_fields (combine (indices (String.length s)) (characters s))
              [("port", value)])
  | _ => VObj [("port", value)]
  end.

(** [Object.assign] writes into its target: a declared [httpsOptions] object
    is the object the settings store holds, which thereby gets the port too. *)
Definition write_https_options (map : list (string * JsValue)) (value : JsValue)
    (s : ServerLoader) : ServerLoader :=
  match assoc "httpsOptions" map with
  | Some (VObj fields) =>
      set_settings
        (store_replace "httpsOptions" (VObj (assign_fields fields [("port", value)]))
           (_settings s)) s
  | _ => s
  end.

(** The callbacks of the two [forEach] calls inside [bind]:
    [(key) => this.mount(key, value[key])] and
    [componentDir => this.scan(componentDir)]. *)
Definition mount_entry (value : JsValue) (key : string) : M unit :=
  mount_value key (get_prop value key).

Definition scan_one (componentDir : string) : M unit :=
  _ <- scan componentDir VUndefined ;; ret tt.

(** The local function [bind] of [autoload]: the [switch] over the key. *)
Definition bind (settingsService : ServerSettingsService)
    (property : string) (value : JsValue) (map : list (string * JsValue)) : M unit :=
  if property =? "mount" then
    match object_keys (mount_of settingsService) with
    | Some keys => forEach keys (mount_entry value)
    | None => throw TypeError
    end
  else if property =? "componentsScan" then
    forEach (componentsScan settingsService) scan_one
  else if property =? "httpPort" then
    s <- this ;;
    match _httpServer s with
    | None => _ <- createHttpServer value ;; ret tt
    | Some _ => ret tt
    end
  else if property =? "httpsPort" then
    s <- this ;;
    match _httpsServer s with
    | None =>
        modify (write_https_options map value) ;;
        _ <- createHttpsServer (https_options map value) ;;
        ret tt
    | Some _ => ret tt
    end
  else ret tt.

(** The two passes of [autoload] over the settings. *)
Definition log_setting (kv : string * JsValue) : M unit :=
  log Info [Txt "[TSED] settings."; Sub (VStr (fst kv)); Txt " =>"] [snd kv].

Definition dispatch_setting (settingsService : ServerSettingsService)
    (kv : string * JsValue) : M unit :=
  if truthy (snd kv)
  then bind settingsService (fst kv) (snd kv) (entries settingsService)
  else ret tt.

(** [autoload(settings)] *)
Definition autoload (settings : JsValue) : M unit :=
  log Info [Txt "[TSED] Autoload configuration :"] [] ;;
  modify (fun s => set_settings (provider_set C settings (_settings s)) s) ;;
  settingsService <- getSettingsService ;;
  forEach (entries settingsService) log_setting ;;
  forEach (entries settingsService) (dispatch_setting settingsService).

(** [constructor()]: [metadata] is [ServerSettingsProvider.getMetadata(this)]. *)
Definition authentification : JsFun :=
  match isAuthenticated K, onAuth K with
  | Some f, _ => FBound f
  | None, Some f => FBound f
  | None, None => FBound FNoop
  end.

Definition constructor (metadata : JsValue) : Run unit :=
  (emit (EInjectorFactory "ExpressApplication") ;;
   modify (set_settings (provider_new C)) ;;
   modify (fun s => set_settings
                      (store_set "authentification" (VFun authentification) (_settings s)) s) ;;
   if truthy metadata then autoload metadata else ret tt)
  (mkServerLoader [] None None false 0).

(** One [if (this.httpServer) { ... }] block of [startServers]: the [listen]
    call, then the promise with its two handlers. *)
Definition start_listener (l : Listener) (server : option nat)
    (address_port : JsValue * JsValue) (start_text listen_text : string)
  : M (list Waiter) :=
  match server with
  | Some handle =>
      let address := fst address_port in
      let port := snd address_port in
      log Debug [Txt start_text; Sub address; Txt ":"; Sub port] [] ;;
      emit (EListen l handle port address) ;;
      emit (EOn l handle "listening") ;;
      emit (EOn l handle "error") ;;
      ret [mkWaiter l [Txt listen_text; Sub address; Txt ":"; Sub port] Pending]
  | None => ret []
  end.

(** [startServers()], with the events the servers go on to emit. *)
Definition startServers (net : list NetEvent) : M JsValue :=
  settingsService <- getSettingsService ;;
  s <- this ;;
  http <- start_listener Http (_httpServer s) (getHttpPort settingsService)
            "[TSED] Start HTTP server on " "[TSED] HTTP Server listen on " ;;
  https <- start_listener Https (_httpsServer s) (getHttpsPort settingsService)
            "[TSED] Start HTTPs server on " "[TSED] HTTPs Server listen port " ;;
  let promises := http ++ https in
  fun s => let r := await_all promises net in mkRun (fst r) s (snd r).

(** [f.call(this, ...args)] for a hook that may be missing, in which case the
    fallback [new Function] runs. *)
Definition invoke (name : string) (hook : option Hook) (args : list JsValue) : M JsValue :=
  match hook with
  | Some h => emit (EHook name args) ;; h args
  | None => ret VUndefined
  end.

(** [initializeSettings()] *)
Definition initializeSettings : M JsValue :=
  settingsService <- getSettingsService ;;
  log Info [Txt "[TSED] Import services"] [] ;;
  emit EInjectorLoad ;;
  raise_if (injector_load_error C) ;;
  emit (EInjectorGet "InjectorService") ;;
  modify (fun s => mkServerLoader (_settings s) (_httpServer s) (_httpsServer s)
                     true (next_handle s)) ;;
  (* first [then] *)
  match importMiddlewares K with
  | Some h => invoke "importMiddlewares" (Some h) [expressApp]
  | None => invoke "$onMountingMiddlewares" (onMountingMiddlewares K) [expressApp]
  end ;;
  (* second [then] *)
  emit (EInjectorGet "ControllerService") ;;
  emit (EInjectorGet "RouteService") ;;
  log Info [Txt "[TSED] Import controllers"] [] ;;
  emit EControllerLoad ;;
  raise_if (controller_load_error C) ;;
  log Info [Txt "[TSED] Routes mounted :"] [] ;;
  emit EPrintRoutes ;;
  (* third [then] *)
  mountStaticDirectories (serveStatic settingsService) ;;
  invoke "$afterRoutesInit" (afterRoutesInit K) [expressApp] ;;
  (* fourth [then] *)
  match onError K with
  | Some fnError => _ <- use [VFun (FBound fnError)] ;; ret tt
  | None => ret tt
  end ;;
  use [VFun (FNamed "GlobalErrorHandlerMiddleware")] ;;
  ret VUndefined.

(** The local function [call] of [start]:
    [key in this ? this[key](...args) : elseFn]. *)
Definition call (key : string) (elseFn : JsValue) (args : list JsValue) : M JsValue :=
  match hook_of K key with
  | Some h => emit (EHook key args) ;; h args
  | None => ret elseFn
  end.

(** The four awaited stages of [start]. *)
Definition stage_onInit : M JsValue := call "$onInit" (VFun FNoop) [].
Definition stage_onReady : M JsValue := call "$onReady" (VFun FNoop) [].

(** The [try] block of [start]. *)
Definition boot (net : list NetEvent) : M JsValue :=
  stage_onInit ;;
  initializeSettings ;;
  startServers net ;;
  stage_onReady ;;
  ret VUndefined.

(** The [catch (err)] block of [start]. *)
Definition on_boot_error (err : JsValue) : M JsValue :=
  call "$onServerInitError" (VFun (FLogServerError err)) [err].

(** [start()]: the completion is how the returned promise settles. *)
Definition start (net : list NetEvent) : M JsValue :=
  getSettingsService ;;
  try_catch (boot net) on_boot_error.

End Methods.

(** ** A concrete set of collaborators, to run the methods on examples *)

Module Sample.

Definition lookup (key : string) (store : list (string * JsValue)) : JsValue :=
  match assoc key store with Some v => v | None => VUndefined end.

Definition strings_of (v : JsValue) : list string :=
  match v with
  | VArr items =>
      flat_map (fun item => match item with VStr s => [s] | _ => [] end) items
  | _ => []
  end.

Definition service (store : list (string * JsValue)) : ServerSettingsService :=
  {| entries := store;
     mount_of := lookup "mount" store;
     componentsScan := strings_of (lookup "componentsScan" store);
     serveStatic := lookup "serveStatic" store;
     getHttpPort := (VStr "0.0.0.0", lookup "httpPort" store);
     getHttpsPort := (VStr "0.0.0.0", lookup "httpsPort" store) |}.

Definition merge (settings : JsValue) (store : list (string * JsValue)) :=
  match settings with
  | VObj fields => assign_fields store fields
  | _ => store
  end.

Definition boom : JsValue := VStr "boom".

(** Three controllers under [ctrl/], the second of which fails to load. *)
Definition collaborators : Collaborators :=
  {| settings_service := service;
     provider_set := merge;
     settings_endpoint := lookup "endpoint";
     glob_sync := fun pattern =>
       if pattern =? "ctrl/*.ts" then ["ctrl/a.ts"; "ctrl/bad.ts"; "ctrl/c.ts"] else [];
     controller_import := fun file _ =>
       if file =? "ctrl/bad.ts" then Some boom else None;
     serve_static_missing := None;
     injector_load_error := None;
     controller_load_error := None;
     provider_new := [("endpoint", VStr "/rest")];
     app_use_error := fun args =>
       if existsb is_function args then None else Some TypeError;
     app_engine_error := fun _ fn => if is_function fn then None else Some TypeError;
     https_create_error := fun _ => None;
     foreign_scan_error := fun _ _ => None |}.

Definition no_hooks : Subclass :=
  {| onInit := None; importMiddlewares := None; onMountingMiddlewares := None;
     afterRoutesInit := None; onReady := None; onServerInitError := None;
     onError := None; isAuthenticated := None; onAuth := None |}.

Definition fresh : ServerLoader := mkServerLoader [("endpoint", VStr "/rest")] None None false 0.

(** A receiver that already owns HTTP listener 0, bound to port 8080. *)
Definition listening_on_8080 : ServerLoader :=
  mkServerLoader [("endpoint", VStr "/rest"); ("httpPort", VNum 8080)] (Some 0) None false 1.

(** A receiver that owns HTTP listener 0 and HTTPS listener 1. *)
Definition both_listeners : ServerLoader :=
  mkServerLoader [("endpoint", VStr "/rest"); ("httpPort", VNum 8080); ("httpsPort", VNum 8000)]
    (Some 0) (Some 1) false 2.

(** Hooks that return a value, and hooks that throw. *)
Definition returns (v : JsValue) : Hook := fun _ => ret v.
Definition throws (e : JsValue) : Hook := fun _ => throw e.

End Sample.

(** ** Definitions used to state the properties *)

(** Recognizers of the calls that the properties count. *)
Definition is_require (e : Event) : bool :=
  match e with ERequire _ => true | _ => false end.
Definition is_mapTo (e : Event) : bool :=
  match e with EMapTo _ _ => true | _ => false end.
Definition is_error_log (e : Event) : bool :=
  match e with ELog Error _ _ => true | _ => false end.
Definition is_glob (e : Event) : bool :=
  match e with EGlob _ => true | _ => false end.
Definition is_create (l : Listener) (e : Event) : bool :=
  match e with ECreateServer l' _ _ => Listener_eqb l l' | _ => false end.
Definition is_listen (e : Event) : bool :=
  match e with EListen _ _ _ _ => true | _ => false end.
Definition is_app_use (e : Event) : bool :=
  match e with EAppUse _ => true | _ => false end.

Definition count (p : Event -> bool) (t : list Event) : nat := length (filter p t).

(** What [use] hands to the application for one argument. *)
Inductive Registered (initialized : bool) : JsValue -> JsValue -> Prop :=
| reg_wrapped f : initialized = true -> Registered initialized (VFun f) (VFun (FBuilt f))
| reg_plain_function f : initialized = false -> Registered initialized (VFun f) (VFun f)
| reg_other v : is_function v = false -> Registered initialized v v.

Definition import_fails (C : Collaborators) (endpoint : JsValue) (file : string) : bool :=
  match controller_import C file endpoint with
  | Some _ => true
  | None => false
  end.

Definition scan_endpoint (C : Collaborators) (endpoint : JsValue) (s : ServerLoader) :=
  match endpoint with
  | VUndefined => settings_endpoint C (_settings s)
  | _ => endpoint
  end.



Definition with_http_server (port : JsValue) (s : ServerLoader) : ServerLoader :=
  mkServerLoader (store_set "httpPort" port (_settings s)) (Some (next_handle s))
    (_httpsServer s) (_injectorService s) (S (next_handle s)).

Definition with_https_server (options : JsValue) (s : ServerLoader) : ServerLoader :=
  mkServerLoader (store_set "httpsPort" (get_prop options "port") (_settings s))
    (_httpServer s) (Some (next_handle s)) (_injectorService s) (S (next_handle s)).

Definition log_event (kv : string * JsValue) : Event :=
  ELog Info [Txt "[TSED] settings."; Sub (VStr (fst kv)); Txt " =>"] [snd kv].

(** The receiver and the settings view [autoload] dispatches on. *)
Definition autoload_receiver (C : Collaborators) (settings : JsValue) (s : ServerLoader) :=
  set_settings (provider_set C settings (_settings s)) s.

Definition autoload_service (C : Collaborators) (settings : JsValue) (s : ServerLoader) :=
  settings_service C (provider_set C settings (_settings s)).

(** The keys [bind] has a case for. *)
Definition recognized (key : string) : bool :=
  (key =? "mount") || (key =? "componentsScan") || (key =? "httpPort") || (key =? "httpsPort").

(** The first event a listener emits, if any. *)
Fixpoint first_signal (l : Listener) (net : list NetEvent) : option Signal :=
  match net with
  | [] => None
  | ev :: rest => if Listener_eqb (fst ev) l then Some (snd ev) else first_signal l rest
  end.

(** Where a promise ends up once [net] has been emitted. *)
Definition outcome (l : Listener) (p : PromiseState) (net : list NetEvent) : PromiseState :=
  match p with
  | Pending =>
      match first_signal l net with
      | Some Listening => Fulfilled
      | Some (ErrorSignal e) => Rejected e
      | None => Pending
      end
  | _ => p
  end.

(** How the aggregate of two promises relates to the two promises. *)
Definition aggregate_of (c : Completion JsValue) (a b : PromiseState) : Prop :=
  match c with
  | Normal v => v = VArr [VUndefined; VUndefined] /\ a = Fulfilled /\ b = Fulfilled
  | Throw e => a = Rejected e \/ b = Rejected e
  | Stall => (a = Pending /\ b <> Fulfilled /\ (forall e, b <> Rejected e))
             \/ (b = Pending /\ a <> Fulfilled /\ (forall e, a <> Rejected e))
             \/ (a = Pending /\ b = Fulfilled) \/ (a = Fulfilled /\ b = Pending)
  end.

Definition not_rejected (p : PromiseState) : bool :=
  match p with Rejected _ => false | _ => true end.

(** The two promises [startServers] builds when both servers exist. *)
Definition http_waiter (svc : ServerSettingsService) : Waiter :=
  mkWaiter Http [Txt "[TSED] HTTP Server listen on "; Sub (fst (getHttpPort svc));
                 Txt ":"; Sub (snd (getHttpPort svc))] Pending.

Definition https_waiter (svc : ServerSettingsService) : Waiter :=
  mkWaiter Https [Txt "[TSED] HTTPs Server listen port "; Sub (fst (getHttpsPort svc));
                  Txt ":"; Sub (snd (getHttpsPort svc))] Pending.

(** A subclass whose [$onInit] throws and whose [$onServerInitError] throws
    the error it receives again, and one with no error hook. *)
Definition rethrow : Hook := fun args => throw (hd VUndefined args).

Definition failing_init (handler : option Hook) : Subclass :=
  {| onInit := Some (Sample.throws Sample.boom);
     importMiddlewares := None; onMountingMiddlewares := None;
     afterRoutesInit := None; onReady := None; onServerInitError := handler;
     onError := None; isAuthenticated := None; onAuth := None |}.

(** How a stage that did not complete ends the [try] block. *)
Definition stop {A} (c : Completion A) : Completion JsValue :=
  match c with
  | Normal _ => Normal VUndefined
  | Throw e => Throw e
  | Stall => Stall
  end.

Definition with_hook (name : string) (h : option Hook) (K : Subclass) : Subclass :=
  mkSubclass
    (if name =? "$onInit" then h else onInit K)
    (importMiddlewares K)
    (if name =? "$onMountingMiddlewares" then h else onMountingMiddlewares K)
    (if name =? "$afterRoutesInit" then h else afterRoutesInit K)
    (if name =? "$onReady" then h else onReady K)
    (onServerInitError K) (onError K) (isAuthenticated K) (onAuth K).

(** A hook that returns [v] and does nothing else. *)
Definition quiet (v : JsValue) : Hook := fun _ => ret v.

(** The arguments each optional hook is called with. *)
Definition hook_args (name : string) : list JsValue :=
  if (name =? "$onInit") || (name =? "$onReady") then [] else [expressApp].

(** [r1] is [r0] with the call [ev] added: same completion, same receiver,
    and one more event, present whenever [r0] completes. *)
Definition inserted (ev : Event) {A} (r0 r1 : Run A) : Prop :=
  completion r1 = completion r0
  /\ final r1 = final r0
  /\ match completion r0 with
     | Normal _ => exists pre post, trace r0 = pre ++ post /\ trace r1 = pre ++ ev :: post
     | _ => trace r1 = trace r0
            \/ exists pre post, trace r0 = pre ++ post /\ trace r1 = pre ++ ev :: post
     end.

(** The same, without saying whether the call was reached. *)
Definition at_most_inserted (ev : Event) {A} (r0 r1 : Run A) : Prop :=
  completion r1 = completion r0
  /\ final r1 = final r0
  /\ (trace r1 = trace r0
      \/ exists pre post, trace r0 = pre ++ post /\ trace r1 = pre ++ ev :: post).

(** The hooks the boot calls when the subclass defines them. *)
Definition optional_hooks : list string :=
  ["$onInit"; "$onMountingMiddlewares"; "$afterRoutesInit"; "$onReady"].

(** A subclass that defines every optional hook, each doing nothing. *)
Definition every_hook : Subclass :=
  {| onInit := Some (quiet VUndefined); importMiddlewares := None;
     onMountingMiddlewares := Some (quiet VUndefined);
     afterRoutesInit := Some (quiet VUndefined); onReady := Some (quiet VUndefined);
     onServerInitError := None; onError := None; isAuthenticated := None;
     onAuth := None |}.

(** ** Definitions used by the further properties *)

(** The files a trace imports and the files it registers, in order. *)
Definition required_files (t : list Event) : list string :=
  flat_map (fun e => match e with ERequire file => [file] | _ => [] end) t.

Definition mapped_files (t : list Event) : list string :=
  flat_map (fun e => match e with EMapTo file _ => [file] | _ => [] end) t.

(** Does a path hold a backslash? *)
Fixpoint has_backslash (path : string) : bool :=
  match path with
  | EmptyString => false
  | String c rest => Ascii.eqb c backslash || has_backslash rest
  end.

(** A trace in which no server is created. *)
Definition creates_nothing (t : list Event) : Prop :=
  Forall (fun e => match e with ECreateServer _ _ _ => False | _ => True end) t.

(** What a run may do to the listener of one kind: keep the one the receiver
    has, or, when it has none, create at most one and store it. *)
Definition listener_kept_or_created (l : Listener) (get : ServerLoader -> option nat)
    {A} (s : ServerLoader) (r : Run A) : Prop :=
  match get s with
  | Some h => get (final r) = Some h /\ count (is_create l) (trace r) = 0
  | None =>
      (get (final r) = None /\ count (is_create l) (trace r) = 0)
      \/ (exists h, get (final r) = Some h /\ count (is_create l) (trace r) = 1)
  end.

(** How a wait on one listener alone ends. *)
Definition decided_by (l : Listener) (net : list NetEvent) : Completion JsValue :=
  match first_signal l net with
  | Some Listening => Normal (VArr [VUndefined])
  | Some (ErrorSignal e) => Throw e
  | None => Stall
  end.

(** The number of listeners the receiver owns. *)
Definition listeners (s : ServerLoader) : nat :=
  (match _httpServer s with Some _ => 1 | None => 0 end)
  + (match _httpsServer s with Some _ => 1 | None => 0 end).

(** A receiver that declares two mounted endpoints, the second of which has
    no directory string. *)
Definition broken_mount : JsValue :=
  VObj [("/a", VStr "ctrl/*.ts"); ("/b", VNum 1); ("/c", VStr "ctrl/*.ts")].

(** One registration through [use], as the application sees it. *)
Definition registration (s : ServerLoader) (handler : JsValue) : list Event :=
  if _injectorService s
  then [EInjectorGet "MiddlewareService"; EAppUse [wrap_arg handler]]
  else [EAppUse [handler]].

(** The last registrations of [initializeSettings]: the subclass's [$onError],
    bound, when it has one, then the framework's global error handler. *)
Definition error_handlers (K : Subclass) (s : ServerLoader) : list Event :=
  (match onError K with
   | Some fnError => registration s (VFun (FBound fnError))
   | None => []
   end)
  ++ registration s (VFun (FNamed "GlobalErrorHandlerMiddleware")).

(** A run that, when it completes, returns [undefined] and ends with the
    registration of the error handlers. *)
Definition ends_with_error_handlers (K : Subclass) (r : Run JsValue) : Prop :=
  forall v, completion r = Normal v ->
  v = VUndefined /\ exists pre, trace r = pre ++ error_handlers K (final r).

(** The receiver once [initializeSettings] has resolved the injector. *)
Definition resolved (s : ServerLoader) : ServerLoader :=
  mkServerLoader (_settings s) (_httpServer s) (_httpsServer s) true (next_handle s).

(** ** The reflection helpers of utils.ts

    The helpers look at a value's [typeof], its [constructor] and [prototype]
    properties, its [name], and at which built-in class it is or is built from.
    [Target] keeps exactly that much of a JavaScript value. *)

Module Utils.

(** A class: the built-in constructors the helpers meet, or a user class with
    the class it extends ([Object] for a class without [extends]).  Two user
    classes are the same class when name and parent agree. *)
Inductive Class :=
| CObject | CFunction | CSymbol | CString | CNumber | CBoolean
| CArray | CMap | CSet | CWeakMap | CWeakSet
| CUser (name : string) (parent : Class).

(** [Obj c] is what [new c] builds, literals and wrappers included, for every
    class but [Function] and the classes that extend it: their [new] builds a
    function, and [new Function()] the constructor function named
    ["anonymous"], which is the [Ctor] of a class without [extends].  For those
    classes [Obj c] is an object such as [Object.create(c.prototype)]. *)
Inductive Target :=
| Undefined
| Null
| Str (s : string)            (* a primitive string *)
| Num (n : Z)                 (* a primitive number *)
| Bool (b : bool)             (* a primitive boolean *)
| Sym (description : string)  (* a symbol *)
| Ctor (c : Class)            (* a class or constructor function: it has a prototype *)
| Lambda (name : string)      (* an arrow function or a method: a function without prototype *)
| Obj (c : Class)             (* an object, not callable, that inherits from [c.prototype] *)
| Bare.                       (* [Object.create(null)]: an object without constructor *)

Fixpoint class_eqb (a b : Class) : bool :=
  match a, b with
  | CObject, CObject | CFunction, CFunction | CSymbol, CSymbol
  | CString, CString | CNumber, CNumber | CBoolean, CBoolean
  | CArray, CArray | CMap, CMap | CSet, CSet
  | CWeakMap, CWeakMap | CWeakSet, CWeakSet => true
  | CUser n p, CUser m q => (n =? m) && class_eqb p q
  | _, _ => false
  end.

(** [a === b] on the values the helpers compare with [===]. *)
Definition is_class (t : Target) (c : Class) : bool :=
  match t with
  | Ctor k => class_eqb k c
  | _ => false
  end.

(** Is [c] the class [base] or one that extends it? *)
Fixpoint derives (c base : Class) : bool :=
  class_eqb c base
  || match c with
     | CUser _ parent => derives parent base
     | _ => false
     end.

(** [t instanceof base] *)
Definition instanceof (t : Target) (base : Class) : bool :=
  match t with
  | Obj c => derives c base || class_eqb base CObject
  | Ctor _ | Lambda _ => class_eqb base CFunction || class_eqb base CObject
  | _ => false
  end.

(** [typeof t] *)
Definition typeof (t : Target) : string :=
  match t with
  | Undefined => "undefined"
  | Null | Obj _ | Bare => "object"
  | Str _ => "string"
  | Num _ => "number"
  | Bool _ => "boolean"
  | Sym _ => "symbol"
  | Ctor _ | Lambda _ => "function"
  end.

Definition class_name (c : Class) : string :=
  match c with
  | CObject => "Object" | CFunction => "Function" | CSymbol => "Symbol"
  | CString => "String" | CNumber => "Number" | CBoolean => "Boolean"
  | CArray => "Array" | CMap => "Map" | CSet => "Set"
  | CWeakMap => "WeakMap" | CWeakSet => "WeakSet"
  | CUser name _ => name
  end.

(** Reading a property of [undefined] or [null] throws a TypeError: [None]. *)

(** [t.constructor] *)
Definition constructor_of (t : Target) : option Target :=
  match t with
  | Undefined | Null => None
  | Str _ => Some (Ctor CString)
  | Num _ => Some (Ctor CNumber)
  | Bool _ => Some (Ctor CBoolean)
  | Sym _ => Some (Ctor CSymbol)
  | Ctor _ | Lambda _ => Some (Ctor CFunction)
  | Obj c => Some (Ctor c)
  | Bare => Some Undefined
  end.

(** Is [t.prototype] truthy? *)
Definition has_prototype (t : Target) : option bool :=
  match t with
  | Undefined | Null => None
  | Ctor _ => Some true
  | _ => Some false
  end.

(** [t.name] *)
Definition name_of (t : Target) : option string :=
  match t with
  | Undefined | Null => None
  | Ctor c => Some (class_name c)
  | Lambda name => Some name
  | _ => Some ""   (* [undefined] shown as no name; not reached by the helpers *)
  end.

(** [getClassName(targetClass)] *)
Definition getClassName (targetClass : Target) : option string :=
  if typeof targetClass =? "symbol" then
    match targetClass with
    | Sym description => Some ("Symbol(" ++ description ++ ")")%string
    | _ => None
    end
  else if typeof targetClass =? "function" then name_of targetClass
  else match constructor_of targetClass with
       | Some c => name_of c
       | None => None
       end.

(** [getContructor(targetClass)] *)
Definition getContructor (targetClass : Target) : option Target :=
  if typeof targetClass =? "function" then Some targetClass
  else constructor_of targetClass.

(** [getClass(target)] *)
Definition getClass (target : Target) : option Target :=
  match has_prototype target with
  | None => None
  | Some true => Some target
  | Some false => constructor_of target
  end.

(** [getClassOrSymbol(target)] *)
Definition getClassOrSymbol (target : Target) : option Target :=
  if typeof target =? "symbol" then Some target else getClass target.

(** [isTargetType(target, type)] *)
Definition isTargetType (target : Target) (type : string) : bool :=
  typeof target =? type.

(** [["string", "boolean", "number"].indexOf(x)] *)
Definition index_of_primitive (x : string) : Z :=
  if x =? "string" then 0%Z
  else if x =? "boolean" then 1%Z
  else if x =? "number" then 2%Z
  else (-1)%Z.

(** [isPrimitiveOrPrimitiveClass(target)] *)
Definition isPrimitiveOrPrimitiveClass (target : Target) : bool :=
  let isPrimitive := index_of_primitive (typeof target) in
  if (-1 <? isPrimitive)%Z then true
  else instanceof target CString
       || is_class target CString
       || instanceof target CNumber
       || is_class target CNumber
       || instanceof target CBoolean
       || is_class target CBoolean.

(** [Object.prototype.toString.call(target) === "[object Array]"]: true of
    arrays, instances of classes that extend [Array] included. *)
Definition has_array_tag (target : Target) : bool :=
  match target with
  | Obj c => derives c CArray
  | _ => false
  end.

(** [isArrayOrArrayClass(target)] *)
Definition isArrayOrArrayClass (target : Target) : bool :=
  if is_class target CArray then true else has_array_tag target.

(** [isCollection(target)] *)
Definition isCollection (target : Target) : bool :=
  isArrayOrArrayClass target
  || is_class target CMap
  || is_class target CSet
  || is_class target CWeakMap
  || is_class target CWeakSet.

(** [new Function()] *)
Definition new_Function : Target := Ctor (CUser "anonymous" CObject).

(** [isEmpty(value)] *)
Definition isEmpty (value : Target) : bool :=
  match value with
  | Str s => s =? ""
  | Null => true
  | Undefined => true
  | _ => false
  end.

(** The built-in class at the root of a class's [extends] chain. *)
Fixpoint root (c : Class) : Class :=
  match c with
  | CUser _ parent => root parent
  | _ => c
  end.

Definition builtin (c : Class) : bool :=
  match c with
  | CUser _ _ => false
  | _ => true
  end.

End Utils.

(** The calls one [use(...args)] makes. *)
Definition use_calls (args : list JsValue) (s : ServerLoader) : list Event :=
  if _injectorService s
  then [EInjectorGet "MiddlewareService"; EAppUse (map wrap_arg args)]
  else [EAppUse args].

(** [typeof v === "string"] *)
Definition is_string (v : JsValue) : bool :=
  match v with VStr _ => true | _ => false end.

(** The arguments one [use(...args)] hands to the application. *)
Definition registered_args (args : list JsValue) (s : ServerLoader) : list JsValue :=
  if _injectorService s then map wrap_arg args else args.

(** How a call ends that only a collaborator can make fail. *)
Definition unless_thrown {A} (error : option JsValue) (a : A) : Completion A :=
  match error with
  | Some er => Throw er
  | None => Normal a
  end.

(** A hook that registers middlewares through [use] and returns. *)
Definition registering (C : Collaborators) (args : list JsValue) : Hook :=
  fun _ => _ <- use C args ;; ret VUndefined.

(** The listener of one kind the receiver holds, and the setting its port is
    kept under. *)
Definition server_of (l : Listener) (s : ServerLoader) : option nat :=
  match l with Http => _httpServer s | Https => _httpsServer s end.

Definition port_key (l : Listener) : string :=
  match l with Http => "httpPort" | Https => "httpsPort" end.

Definition port_setting (l : Listener) (s : ServerLoader) : option JsValue :=
  assoc (port_key l) (_settings s).

(** A hook that rejects with [e] whatever it is called with. *)
Definition rejecting (e : JsValue) (h : Hook) : Prop :=
  forall args s, completion (h args s) = Throw e.

(** How a run [r1], whose subclass defines the hook [name] as the rejecting
    [h], relates to the run [r0] of the subclass without that hook: either
    [r0] fails before the place of the hook, and [r1] is the same run, or [r1]
    makes the calls [r0] makes up to that place, then calls the hook and ends
    with the hook: it throws [e] from the receiver the hook left. *)
Definition cut_short (name : string) (args : list JsValue) (h : Hook) (e : JsValue)
    {A} (r0 r1 : Run A) : Prop :=
  (r1 = r0 /\ forall a, completion r0 <> Normal a)
  \/ (completion r1 = Throw e
      /\ exists pre post s',
           trace r0 = pre ++ post
           /\ trace r1 = pre ++ EHook name args :: trace (h args s')
           /\ final r1 = final (h args s')).


(** Express takes one function. *)
Definition accepts_handlers (C : Collaborators) : Prop :=
  forall f, app_use_error C [VFun f] = None.

(** * Properties *)

(** ** Counting calls in a trace *)

Lemma count_app p t u : count p (t ++ u) = count p t + count p u.
Proof. unfold count. now rewrite filter_app, length_app. Qed.

(** ** Laws of the computations *)

Lemma run_eta A (r : Run A) : mkRun (completion r) (final r) (trace r) = r.
Proof. now destruct r. Qed.

Lemma and_then_run A B (m : M A) (k : A -> M B) s a s1 t1 :
  m s = mkRun (Normal a) s1 t1 ->
  and_then m k s =
  mkRun (completion (k a s1)) (final (k a s1)) (t1 ++ trace (k a s1)).
Proof. unfold and_then. intros ->. reflexivity. Qed.

(** ** [use] *)

Lemma registered_wrap_arg v : Registered true v (wrap_arg v).
Proof.
  unfold wrap_arg. destruct (is_function v) eqn:E.
  - destruct v; try discriminate. now constructor.
  - now constructor.
Qed.

Lemma registered_id v : Registered false v v.
Proof.
  destruct (is_function v) eqn:E.
  - destruct v; try discriminate. now constructor.
  - now constructor.
Qed.

(** C6. [use(...args)] makes exactly one call on the application and leaves
    the receiver unchanged.  With the injector resolved, each argument that is
    a function reaches the application wrapped by the handler builder and every
    other argument reaches it as it is; before that, every argument reaches
    the application as it is, functions included.  [use] returns the receiver
    unless Express throws on those arguments, in which case [use] throws the
    same error. *)
Theorem use_wraps_functions_once_injected
    (C : Collaborators) (args : list JsValue) (s : ServerLoader) :
  exists registered,
    completion (use C args s) = unless_thrown (app_use_error C registered) s
    /\ final (use C args s) = s
    /\ filter is_app_use (trace (use C args s)) = [EAppUse registered]
    /\ Forall2 (Registered (_injectorService s)) args registered
    /\ registered = (if _injectorService s then map wrap_arg args else args).
Proof.
  unfold use, and_then, this, emit, ret, raise_if, unless_thrown. simpl.
  destruct (_injectorService s) eqn:E; simpl.
  - exists (map wrap_arg args).
    destruct (app_use_error C (map wrap_arg args)); simpl; repeat split;
      induction args; simpl; constructor; auto using registered_wrap_arg.
  - exists args.
    destruct (app_use_error C args); simpl; repeat split;
      induction args; constructor; auto using registered_id.
Qed.

(** ** [scan] and [mount] *)

Lemma scan_files_spec C files endpoint : forall nbFiles s,
  let r := scan_files C files endpoint nbFiles s in
  completion r = Normal (nbFiles + length files)
  /\ final r = s
  /\ count is_require (trace r) = length files
  /\ count is_error_log (trace r) = length (filter (import_fails C endpoint) files)
  /\ count is_mapTo (trace r)
     = length (filter (fun f => negb (import_fails C endpoint f)) files)
  /\ count is_glob (trace r) = 0.
Proof.
  induction files as [|file rest IH]; intros nbFiles s; simpl.
  - repeat split; try reflexivity. now rewrite Nat.add_0_r.
  - specialize (IH (S nbFiles) s). simpl in IH.
    destruct IH as (Hc & Hf & Hr & He & Hm & Hg).
    unfold and_then, log, emit, import_fails in *. simpl.
    destruct (controller_import C file endpoint) eqn:E; simpl;
      rewrite Hc; simpl; rewrite Hf;
      unfold count in *; simpl; rewrite ?Hr, ?He, ?Hm, ?Hg;
      repeat split; try reflexivity; f_equal; lia.
Qed.

Lemma scan_unfold C path endpoint s :
  scan C path endpoint s =
  let r := scan_files C (glob_sync C (replace_backslashes path))
             (scan_endpoint C endpoint s) 0 s in
  mkRun (Normal s) s
    (EGlob (replace_backslashes path)
       :: ELog Info [Txt ("[TSED] Scan files : " ++ path)%string] []
       :: trace r).
Proof.
  unfold scan, scan_endpoint.
  pose proof (scan_files_spec C (glob_sync C (replace_backslashes path))
                (match endpoint with
                 | VUndefined => settings_endpoint C (_settings s)
                 | _ => endpoint
                 end) 0 s) as H.
  simpl in H. destruct H as (Hc & Hf & _).
  unfold and_then, this, emit, log, ret. simpl.
  unfold emit. simpl. rewrite Hc. simpl. rewrite Hf.
  now rewrite app_nil_r.
Qed.

(** C5. A scan whose pattern matches N files, exactly one of which throws
    while it is imported, returns normally with the receiver unchanged; it has
    attempted the import of all N files, completed N-1 registrations and
    logged one error.  The loop counter ends at N as well. *)
Theorem scan_tolerates_one_failing_file
    (C : Collaborators) (path : string) (endpoint : JsValue) (s : ServerLoader) :
  let files := glob_sync C (replace_backslashes path) in
  let target := scan_endpoint C endpoint s in
  length (filter (import_fails C target) files) = 1 ->
  completion (scan C path endpoint s) = Normal s
  /\ final (scan C path endpoint s) = s
  /\ completion (scan_files C files target 0 s) = Normal (length files)
  /\ count is_require (trace (scan C path endpoint s)) = length files
  /\ count is_mapTo (trace (scan C path endpoint s)) = length files - 1
  /\ count is_error_log (trace (scan C path endpoint s)) = 1.
Proof.
  intros files target H. rewrite scan_unfold. simpl.
  destruct (scan_files_spec C files target 0 s) as (Hc & Hf & Hr & He & Hm & Hg).
  fold files target. unfold count in *. simpl.
  rewrite Hc, Hr, He, Hm, H. repeat split.
  pose proof (filter_length (import_fails C target) files) as L.
  rewrite H in L. simpl in L. lia.
Qed.

Lemma scan_tolerates_one_failing_file_sample :
  let r := scan Sample.collaborators "ctrl/*.ts" (VStr "/api") Sample.fresh in
  completion r = Normal Sample.fresh
  /\ final r = Sample.fresh
  /\ completion (scan_files Sample.collaborators
                   ["ctrl/a.ts"; "ctrl/bad.ts"; "ctrl/c.ts"] (VStr "/api") 0 Sample.fresh)
     = Normal 3
  /\ count is_require (trace r) = 3
  /\ count is_mapTo (trace r) = 2
  /\ count is_error_log (trace r) = 1.
Proof.
  apply (scan_tolerates_one_failing_file
           Sample.collaborators "ctrl/*.ts" (VStr "/api") Sample.fresh).
  reflexivity.
Defined.

(** The files after the failing one are still imported, in order. *)
Example scan_sample_trace :
  trace (scan Sample.collaborators "ctrl/*.ts" (VStr "/api") Sample.fresh) =
  [ EGlob "ctrl/*.ts";
    ELog Info [Txt "[TSED] Scan files : ctrl/*.ts"] [];
    ELog Debug [Txt "[TSED] Import file "; Sub (VStr "/api"); Txt ":"] [VStr "ctrl/a.ts"];
    ERequire "ctrl/a.ts"; EMapTo "ctrl/a.ts" (VStr "/api");
    ELog Debug [Txt "[TSED] Import file "; Sub (VStr "/api"); Txt ":"] [VStr "ctrl/bad.ts"];
    ERequire "ctrl/bad.ts"; ELog Error [] [Sample.boom];
    ELog Debug [Txt "[TSED] Import file "; Sub (VStr "/api"); Txt ":"] [VStr "ctrl/c.ts"];
    ERequire "ctrl/c.ts"; EMapTo "ctrl/c.ts" (VStr "/api") ].
Proof. reflexivity. Qed.

(** C9. [mount(endpoint, path)] is [scan(path, endpoint)]: the same
    completion, the same receiver afterwards, the same calls in the same
    order, and the same returned object (the receiver). *)
Theorem mount_is_scan (C : Collaborators) (endpoint path : string) (s : ServerLoader) :
  mount C endpoint path s = scan C path (VStr endpoint) s.
Proof.
  unfold mount, and_then. rewrite scan_unfold. simpl.
  now rewrite app_nil_r.
Qed.

(** ** [mountStaticDirectories] *)

Lemma use_run C args s :
  use C args s
  = mkRun (unless_thrown (app_use_error C (registered_args args s)) s) s
      (use_calls args s).
Proof.
  unfold use, and_then, this, emit, ret, raise_if, unless_thrown, registered_args,
    use_calls. simpl.
  destruct (_injectorService s); simpl;
    match goal with |- context [app_use_error C ?a] => destruct (app_use_error C a) end;
    reflexivity.
Qed.

Lemma use_run_accepted C args s :
  app_use_error C (registered_args args s) = None ->
  use C args s = mkRun (Normal s) s (use_calls args s).
Proof. intros H. rewrite use_run, H. reflexivity. Qed.





Example static_mount_sample :
  trace (mountStaticDirectories Sample.collaborators
           (VObj [("/", VStr "public"); ("/docs", VStr "site")]) Sample.fresh) =
  [ EAppUse [VStr "/"; VFun (FStaticGuard (VStr "public"))];
    EAppUse [VStr "/docs"; VFun (FStaticGuard (VStr "site"))] ].
Proof. reflexivity. Qed.

(** ** Listener creation *)

Lemma assoc_store_set_same key v m : assoc key (store_set key v m) = Some v.
Proof.
  induction m as [|[k old] rest IH]; simpl.
  - now rewrite String.eqb_refl.
  - destruct (k =? key) eqn:E; simpl; rewrite E; auto.
Qed.

Lemma assoc_store_set_other key key' v m :
  key' <> key -> assoc key' (store_set key v m) = assoc key' m.
Proof.
  intros N. apply String.eqb_neq in N.
  induction m as [|[k old] rest IH]; simpl.
  - now rewrite String.eqb_sym, N.
  - destruct (k =? key) eqn:E; simpl.
    + apply String.eqb_eq in E. subst k.
      now rewrite String.eqb_sym, N.
    + now rewrite IH.
Qed.

Lemma assoc_store_replace_other key key' v m :
  key' <> key -> assoc key' (store_replace key v m) = assoc key' m.
Proof.
  intros N. apply String.eqb_neq in N.
  induction m as [|[k old] rest IH]; simpl; [reflexivity|].
  destruct (k =? key) eqn:E; simpl.
  - apply String.eqb_eq in E. subst k. now rewrite String.eqb_sym, N.
  - now rewrite IH.
Qed.

Lemma createHttpServer_run port s :
  createHttpServer port s =
  mkRun (Normal (with_http_server port s)) (with_http_server port s)
        [ECreateServer Http (next_handle s) VUndefined].
Proof. reflexivity. Qed.

Lemma createHttpsServer_run C options s :
  createHttpsServer C options s =
  match https_create_error C options with
  | Some er => mkRun (Throw er) s []
  | None =>
      mkRun (Normal (with_https_server options s)) (with_https_server options s)
        [ECreateServer Https (next_handle s) options]
  end.
Proof.
  unfold createHttpsServer, and_then, this, raise_if. simpl.
  destruct (https_create_error C options); reflexivity.
Qed.

(** C2, as stated, fails for the direct call: on a receiver that already owns
    HTTP listener 0 on port 8080, [createHttpServer(9090)] creates listener 1,
    stores it in place of listener 0 and rebinds the port to 9090. *)
Lemma createHttpServer_replaces_existing_listener :
  _httpServer Sample.listening_on_8080 = Some 0
  /\ count (is_create Http)
       (trace (createHttpServer (VNum 9090) Sample.listening_on_8080)) = 1
  /\ _httpServer (final (createHttpServer (VNum 9090) Sample.listening_on_8080)) = Some 1
  /\ assoc "httpPort" (_settings Sample.listening_on_8080) = Some (VNum 8080)
  /\ assoc "httpPort"
       (_settings (final (createHttpServer (VNum 9090) Sample.listening_on_8080)))
     = Some (VNum 9090).
Proof. repeat split. Qed.

(** ** [autoload] *)

Lemma forEach_log_setting es s :
  forEach es log_setting s = mkRun (Normal tt) s (map log_event es).
Proof.
  induction es as [|kv rest IH]; [reflexivity|].
  cbn [forEach]. unfold and_then. simpl. now rewrite IH.
Qed.

Lemma autoload_unfold C settings s :
  let s1 := autoload_receiver C settings s in
  let svc := autoload_service C settings s in
  let r := forEach (entries svc) (dispatch_setting C svc) s1 in
  autoload C settings s =
  mkRun (completion r) (final r)
    (ELog Info [Txt "[TSED] Autoload configuration :"] []
       :: EInjectorFactory "ServerSettingsService"
       :: map log_event (entries svc) ++ trace r).
Proof.
  unfold autoload, autoload_receiver, autoload_service.
  unfold and_then at 1. simpl. unfold and_then at 1. simpl.
  unfold and_then at 1. simpl. unfold and_then at 1.
  rewrite forEach_log_setting. simpl.
  reflexivity.
Qed.

Lemma and_then_ret_tt B (k : unit -> M B) s : and_then (ret tt) k s = k tt s.
Proof. unfold and_then. simpl. apply run_eta. Qed.

Lemma forEach_skips_falsy C svc es : forall s,
  forEach es (dispatch_setting C svc) s =
  forEach (filter (fun kv => truthy (snd kv)) es) (dispatch_setting C svc) s.
Proof.
  induction es as [|kv rest IH]; intros s; [reflexivity|].
  cbn [forEach filter]. destruct (truthy (snd kv)) eqn:E.
  - cbn [forEach]. unfold and_then.
    destruct (completion (dispatch_setting C svc kv s)); try reflexivity.
    now rewrite IH.
  - unfold dispatch_setting at 1. rewrite E. rewrite and_then_ret_tt. apply IH.
Qed.

(** C10. A settings entry whose value is falsy reaches no dispatch handler,
    whatever its key: the dispatch step does nothing, and [autoload] makes the
    same calls as on the truthy entries alone; the pair is logged all the same.
    The values 0, false, the empty string, null and undefined are all falsy,
    and truthiness is strictly stronger than being non-empty: every empty
    value is falsy, while 0 is falsy without being empty. *)
Theorem falsy_settings_reach_no_handler
    (C : Collaborators) (settings : JsValue) (s s' : ServerLoader)
    (key : string) (value : JsValue) :
  truthy value = false ->
  let svc := autoload_service C settings s in
  dispatch_setting C svc (key, value) s' = mkRun (Normal tt) s' []
  /\ forEach (entries svc) (dispatch_setting C svc) s'
     = forEach (filter (fun kv => truthy (snd kv)) (entries svc)) (dispatch_setting C svc) s'
  /\ (exists before after,
        trace (autoload C settings s)
        = before ++ map log_event (entries svc) ++ after)
  /\ Forall (fun v => truthy v = false) [VNum 0; VBool false; VStr ""; VNull; VUndefined]
  /\ (forall v, isEmpty v = true -> truthy v = false)
  /\ (isEmpty (VNum 0) = false /\ truthy (VNum 0) = false).
Proof.
  intros F svc. repeat split.
  - unfold dispatch_setting. simpl. now rewrite F.
  - apply forEach_skips_falsy.
  - rewrite autoload_unfold. cbv zeta. cbn [trace]. fold svc.
    exists [ELog Info [Txt "[TSED] Autoload configuration :"] [];
            EInjectorFactory "ServerSettingsService"].
    eexists. reflexivity.
  - repeat constructor.
  - intros v E. destruct v; try discriminate; try reflexivity.
    simpl in *. now rewrite E.
Qed.

(** [httpPort: 0] is logged and creates no listener. *)
Lemma falsy_settings_reach_no_handler_sample :
  let s := Sample.fresh in
  let settings := VObj [("httpPort", VNum 0)] in
  let svc := autoload_service Sample.collaborators settings s in
  dispatch_setting Sample.collaborators svc ("httpPort", VNum 0) s = mkRun (Normal tt) s []
  /\ forEach (entries svc) (dispatch_setting Sample.collaborators svc) s
     = forEach (filter (fun kv => truthy (snd kv)) (entries svc))
         (dispatch_setting Sample.collaborators svc) s
  /\ (exists before after,
        trace (autoload Sample.collaborators settings s)
        = before ++ map log_event (entries svc) ++ after)
  /\ Forall (fun v => truthy v = false) [VNum 0; VBool false; VStr ""; VNull; VUndefined]
  /\ (forall v, isEmpty v = true -> truthy v = false)
  /\ (isEmpty (VNum 0) = false /\ truthy (VNum 0) = false).
Proof.
  exact (@falsy_settings_reach_no_handler Sample.collaborators
           (VObj [("httpPort", VNum 0)]) Sample.fresh Sample.fresh
           "httpPort" (VNum 0) eq_refl).
Defined.

Example autoload_http_port_zero :
  autoload Sample.collaborators (VObj [("httpPort", VNum 0)]) Sample.fresh =
  mkRun (Normal tt)
    (mkServerLoader [("endpoint", VStr "/rest"); ("httpPort", VNum 0)] None None false 0)
    [ ELog Info [Txt "[TSED] Autoload configuration :"] [];
      EInjectorFactory "ServerSettingsService";
      ELog Info [Txt "[TSED] settings."; Sub (VStr "endpoint"); Txt " =>"] [VStr "/rest"];
      ELog Info [Txt "[TSED] settings."; Sub (VStr "httpPort"); Txt " =>"] [VNum 0] ].
Proof. reflexivity. Qed.

Example autoload_http_port_8080 :
  autoload Sample.collaborators (VObj [("httpPort", VNum 8080)]) Sample.fresh =
  mkRun (Normal tt)
    (mkServerLoader [("endpoint", VStr "/rest"); ("httpPort", VNum 8080)] (Some 0) None false 1)
    [ ELog Info [Txt "[TSED] Autoload configuration :"] [];
      EInjectorFactory "ServerSettingsService";
      ELog Info [Txt "[TSED] settings."; Sub (VStr "endpoint"); Txt " =>"] [VStr "/rest"];
      ELog Info [Txt "[TSED] settings."; Sub (VStr "httpPort"); Txt " =>"] [VNum 8080];
      ECreateServer Http 0 VUndefined ].
Proof. reflexivity. Qed.

Lemma scan_globs_once C path endpoint s :
  completion (scan C path endpoint s) = Normal s
  /\ final (scan C path endpoint s) = s
  /\ count is_glob (trace (scan C path endpoint s)) = 1.
Proof.
  rewrite scan_unfold. simpl. repeat split.
  destruct (scan_files_spec C (glob_sync C (replace_backslashes path))
              (scan_endpoint C endpoint s) 0 s) as (_ & _ & _ & _ & _ & Hg).
  unfold count in *. simpl. now rewrite Hg.
Qed.

Lemma scan_run C path endpoint s :
  scan C path endpoint s = mkRun (Normal s) s (trace (scan C path endpoint s)).
Proof. rewrite scan_unfold. reflexivity. Qed.

Lemma mount_run C endpoint path s :
  mount C endpoint path s = mkRun (Normal s) s (trace (scan C path (VStr endpoint) s)).
Proof.
  unfold mount. rewrite (@and_then_run _ _ _ _ _ _ _ _ (scan_run C path (VStr endpoint) s)).
  simpl. now rewrite app_nil_r.
Qed.

Lemma scan_one_run C componentDir s :
  completion (scan_one C componentDir s) = Normal tt
  /\ final (scan_one C componentDir s) = s
  /\ count is_glob (trace (scan_one C componentDir s)) = 1.
Proof.
  destruct (scan_globs_once C componentDir VUndefined s) as (Hc & Hf & Hg).
  unfold scan_one. rewrite (@and_then_run _ _ _ _ _ _ _ _ (scan_run C componentDir VUndefined s)).
  simpl. rewrite app_nil_r. repeat split; assumption.
Qed.

Lemma components_scan_loop C dirs s :
  completion (forEach dirs (scan_one C) s) = Normal tt
  /\ final (forEach dirs (scan_one C) s) = s
  /\ count is_glob (trace (forEach dirs (scan_one C) s)) = length dirs.
Proof.
  induction dirs as [|dir rest IH]; [repeat split|].
  destruct IH as (Hc & Hf & Hg).
  destruct (scan_one_run C dir s) as (Hc1 & Hf1 & Hg1).
  cbn [forEach]. unfold and_then. rewrite Hc1, Hf1. cbn [completion final trace].
  rewrite count_app, Hg1, Hg. repeat split; assumption.
Qed.

Lemma forEach_final A (f : A -> M unit) xs :
  (forall x s, final (f x s) = s) -> forall s, final (forEach xs f s) = s.
Proof.
  intros H. induction xs as [|x rest IH]; intros s; [reflexivity|].
  cbn [forEach]. unfold and_then.
  destruct (completion (f x s)); cbn [final]; rewrite ?H; auto.
Qed.

Lemma forEach_trace_Forall A (P : Event -> Prop) (f : A -> M unit) xs :
  (forall x s, Forall P (trace (f x s))) -> forall s, Forall P (trace (forEach xs f s)).
Proof.
  intros H. induction xs as [|x rest IH]; intros s; [constructor|].
  cbn [forEach]. unfold and_then.
  destruct (completion (f x s)); cbn [trace]; auto.
  apply Forall_app. auto.
Qed.

Lemma creates_nothing_count l t : creates_nothing t -> count (is_create l) t = 0.
Proof.
  unfold creates_nothing, count. induction 1 as [|e t He _ IH]; [reflexivity|].
  simpl. destruct e; try exact IH. contradiction.
Qed.

(** ** Scans create no server *)

Lemma scan_files_creates_nothing C files endpoint : forall nbFiles s,
  creates_nothing (trace (scan_files C files endpoint nbFiles s)).
Proof.
  induction files as [|file rest IH]; intros nbFiles s; [constructor|].
  specialize (IH (S nbFiles) s).
  cbn [scan_files]. unfold and_then, log, emit. simpl.
  destruct (controller_import C file endpoint); simpl;
    repeat (constructor; [exact I|]); exact IH.
Qed.

Lemma scan_creates_nothing C path endpoint s :
  creates_nothing (trace (scan C path endpoint s)).
Proof.
  rewrite scan_unfold. cbv zeta. cbn [trace].
  repeat (constructor; [exact I|]). apply scan_files_creates_nothing.
Qed.

Lemma scan_one_frame C componentDir s :
  final (scan_one C componentDir s) = s
  /\ creates_nothing (trace (scan_one C componentDir s)).
Proof.
  unfold scan_one.
  rewrite (@and_then_run _ _ _ _ _ _ _ _ (scan_run C componentDir VUndefined s)).
  cbn [completion final trace ret]. rewrite app_nil_r.
  split; [reflexivity | apply scan_creates_nothing].
Qed.

Lemma mount_entry_frame C value key s :
  final (mount_entry C value key s) = s
  /\ creates_nothing (trace (mount_entry C value key s)).
Proof.
  unfold mount_entry, mount_value.
  destruct (get_prop value key);
    try (destruct (has_replace_method _);
         [ unfold and_then, emit, raise_if; cbn [completion final trace];
           match goal with |- context [foreign_scan_error ?c ?a ?b] =>
             destruct (foreign_scan_error c a b) end;
           (split; [reflexivity | repeat constructor])
         | split; [reflexivity | constructor] ]).
  rewrite (@and_then_run _ _ _ _ _ _ _ _ (mount_run C key s0 s)).
  cbn [completion final trace ret]. rewrite app_nil_r.
  split; [reflexivity | apply scan_creates_nothing].
Qed.

Lemma mount_dispatch_frame C svc value s :
  let r := match object_keys (mount_of svc) with
           | Some keys => forEach keys (mount_entry C value)
           | None => throw TypeError
           end s in
  final r = s /\ creates_nothing (trace r).
Proof.
  cbv zeta. destruct (object_keys (mount_of svc)) as [keys|].
  - split.
    + apply forEach_final. intros; apply mount_entry_frame.
    + apply forEach_trace_Forall. intros; apply mount_entry_frame.
  - split; [reflexivity | constructor].
Qed.

Lemma https_dispatch_run C map value s :
  (modify (write_https_options map value) ;;
   _ <- createHttpsServer C (https_options map value) ;; ret tt) s
  = match https_create_error C (https_options map value) with
    | Some er => mkRun (Throw er) (write_https_options map value s) []
    | None =>
        mkRun (Normal tt)
          (with_https_server (https_options map value) (write_https_options map value s))
          [ECreateServer Https (next_handle (write_https_options map value s))
             (https_options map value)]
    end.
Proof.
  unfold and_then at 1. unfold modify at 1. cbn [completion final trace].
  unfold and_then, modify. cbn [completion final trace]. rewrite createHttpsServer_run.
  destruct (https_create_error C (https_options map value)); cbn; reflexivity.
Qed.

Lemma https_port_run C map value s :
  (s0 <- this ;;
   match _httpsServer s0 with
   | None =>
       modify (write_https_options map value) ;;
       _ <- createHttpsServer C (https_options map value) ;;
       ret tt
   | Some _ => ret tt
   end) s
  = match _httpsServer s with
    | Some _ => mkRun (Normal tt) s []
    | None =>
        match https_create_error C (https_options map value) with
        | Some er => mkRun (Throw er) (write_https_options map value s) []
        | None =>
            mkRun (Normal tt)
              (with_https_server (https_options map value)
                 (write_https_options map value s))
              [ECreateServer Https (next_handle (write_https_options map value s))
                 (https_options map value)]
        end
    end.
Proof.
  unfold and_then at 1. unfold this. cbn [completion final trace app].
  destruct (_httpsServer s); [reflexivity|].
  rewrite https_dispatch_run.
  destruct (https_create_error C (https_options map value)); reflexivity.
Qed.

Lemma write_https_options_fields map value s :
  _httpServer (write_https_options map value s) = _httpServer s
  /\ _httpsServer (write_https_options map value s) = _httpsServer s
  /\ _injectorService (write_https_options map value s) = _injectorService s
  /\ next_handle (write_https_options map value s) = next_handle s
  /\ forall key, key <> "httpsOptions" ->
       assoc key (_settings (write_https_options map value s)) = assoc key (_settings s).
Proof.
  unfold write_https_options.
  destruct (assoc "httpsOptions" map) as [[]|]; repeat split; auto.
  intros key N. cbn [set_settings _settings]. now apply assoc_store_replace_other.
Qed.

Lemma mount_value_run C key path s :
  final (mount_value C key path s) = s
  /\ match path with
     | VStr _ => completion (mount_value C key path s) = Normal tt
                 /\ count is_glob (trace (mount_value C key path s)) = 1
     | _ => has_replace_method path = false ->
            completion (mount_value C key path s) = Throw TypeError
            /\ trace (mount_value C key path s) = []
     end.
Proof.
  destruct (mount_entry_frame C (VObj [(key, path)]) key s) as (Hf & _).
  unfold mount_entry in Hf. cbn [get_prop assoc] in Hf.
  rewrite String.eqb_refl in Hf. split; [exact Hf|]. clear Hf.
  destruct path;
    try (intros R; unfold mount_value; rewrite R; split; reflexivity).
  destruct (scan_globs_once C s0 (VStr key) s) as (Hc & Hf & Hg).
  unfold mount_value.
  pose proof (mount_run C key s0 s) as R.
  rewrite (@and_then_run _ _ _ _ _ _ _ _ R).
  simpl. rewrite app_nil_r. repeat split; assumption.
Qed.

Lemma mount_loop C value keys s :
  Forall (fun key => is_string (get_prop value key) = true) keys ->
  completion (forEach keys (mount_entry C value) s) = Normal tt
  /\ final (forEach keys (mount_entry C value) s) = s
  /\ count is_glob (trace (forEach keys (mount_entry C value) s)) = length keys.
Proof.
  induction 1 as [|key rest Hs _ IH]; [repeat split|].
  destruct IH as (Hc & Hf & Hg).
  destruct (mount_value_run C key (get_prop value key) s) as (Hf1 & H1).
  change (mount_value C key (get_prop value key) s)
    with (mount_entry C value key s) in *.
  destruct (get_prop value key); try discriminate Hs.
  destruct H1 as (Hc1 & Ht1).
  cbn [forEach]. unfold and_then. rewrite Hc1, Hf1. cbn [completion final trace].
  rewrite count_app, Ht1, Hg. repeat split; assumption.
Qed.

Lemma mount_loop_throws C value before key after s :
  Forall (fun key => is_string (get_prop value key) = true) before ->
  is_string (get_prop value key) = false ->
  has_replace_method (get_prop value key) = false ->
  completion (forEach (before ++ key :: after) (mount_entry C value) s) = Throw TypeError
  /\ final (forEach (before ++ key :: after) (mount_entry C value) s) = s
  /\ count is_glob (trace (forEach (before ++ key :: after) (mount_entry C value) s))
     = length before.
Proof.
  intros Hb Hn Hr. induction Hb as [|k rest Hs _ IH].
  - destruct (mount_value_run C key (get_prop value key) s) as (Hf1 & H1).
    change (mount_value C key (get_prop value key) s)
      with (mount_entry C value key s) in *.
    cbn [app forEach]. unfold and_then.
    destruct (get_prop value key); try discriminate Hn;
      destruct (H1 Hr) as (Hc1 & Ht1); rewrite Hc1; cbn [completion final trace];
      rewrite Ht1; repeat split; exact Hf1.
  - destruct IH as (Hc & Hf & Hg).
    destruct (mount_value_run C k (get_prop value k) s) as (Hf1 & H1).
    change (mount_value C k (get_prop value k) s)
      with (mount_entry C value k s) in *.
    destruct (get_prop value k); try discriminate Hs.
    destruct H1 as (Hc1 & Ht1).
    cbn [app forEach]. unfold and_then. rewrite Hc1, Hf1. cbn [completion final trace].
    rewrite count_app, Ht1, Hg. repeat split; assumption.
Qed.

(** C7, as stated, fails on a recognized key whose value is non-empty and
    falsy: [httpPort: 0] is not empty, is logged, and creates no listener. *)
Lemma autoload_nonempty_http_port_without_listener :
  let settings := VObj [("httpPort", VNum 0)] in
  let svc := autoload_service Sample.collaborators settings Sample.fresh in
  recognized "httpPort" = true
  /\ isEmpty (VNum 0) = false
  /\ In ("httpPort", VNum 0) (entries svc)
  /\ dispatch_setting Sample.collaborators svc ("httpPort", VNum 0) Sample.fresh
     = mkRun (Normal tt) Sample.fresh []
  /\ count (is_create Http) (trace (autoload Sample.collaborators settings Sample.fresh)) = 0
  /\ _httpServer (final (autoload Sample.collaborators settings Sample.fresh)) = None.
Proof. simpl. repeat split. right. now left. Qed.

(** C7, amended.  [autoload] logs every key/value pair, handled or not,
    before the first dispatch.  A key is dispatched when its value is truthy
    (0, false and NaN are not empty, yet skipped).  [httpPort] then creates
    exactly one listener if the receiver has none of that kind.  [httpsPort],
    if the receiver has no HTTPS listener, first writes the port into a
    declared [httpsOptions] object and then creates exactly one listener with
    those options, unless [Https.createServer] throws on them: the dispatch
    then throws that error and no listener is stored.  [componentsScan] runs
    one scan per declared pattern.  [mount] throws a [TypeError] when the
    declared mapping is null or undefined; otherwise it runs one scan per
    declared endpoint when every directory is a string, and throws a
    [TypeError] at the first endpoint whose directory is neither a string nor
    a value with a [replace] method, after the scans of the endpoints before.
    A key without a case has no effect at all. *)
Theorem autoload_logs_then_dispatches_truthy
    (C : Collaborators) (settings : JsValue) (s s' : ServerLoader)
    (key : string) (value : JsValue) :
  truthy value = true ->
  let svc := autoload_service C settings s in
  let dispatched := forEach (entries svc) (dispatch_setting C svc) (autoload_receiver C settings s) in
  let r := dispatch_setting C svc (key, value) s' in
  let options := https_options (entries svc) value in
  let written := write_https_options (entries svc) value s' in
  trace (autoload C settings s)
  = ELog Info [Txt "[TSED] Autoload configuration :"] []
      :: EInjectorFactory "ServerSettingsService"
      :: map log_event (entries svc) ++ trace dispatched
  /\ (key = "httpPort" -> _httpServer s' = None ->
      r = mkRun (Normal tt) (with_http_server value s')
            [ECreateServer Http (next_handle s') VUndefined])
  /\ (key = "httpsPort" -> _httpsServer s' = None ->
      r = match https_create_error C options with
          | Some er => mkRun (Throw er) written []
          | None =>
              mkRun (Normal tt) (with_https_server options written)
                [ECreateServer Https (next_handle s') options]
          end)
  /\ (key = "componentsScan" ->
      completion r = Normal tt /\ final r = s'
      /\ count is_glob (trace r) = length (componentsScan svc))
  /\ (key = "mount" ->
      final r = s'
      /\ match object_keys (mount_of svc) with
         | None => completion r = Throw TypeError /\ trace r = []
         | Some keys =>
             (Forall (fun k => is_string (get_prop value k) = true) keys ->
              completion r = Normal tt /\ count is_glob (trace r) = length keys)
             /\ (forall before k after,
                   keys = before ++ k :: after ->
                   Forall (fun k => is_string (get_prop value k) = true) before ->
                   is_string (get_prop value k) = false ->
                   has_replace_method (get_prop value k) = false ->
                   completion r = Throw TypeError
                   /\ count is_glob (trace r) = length before)
         end)
  /\ (recognized key = false -> r = mkRun (Normal tt) s' []).
Proof.
  intros T svc dispatched r options written.
  split; [|split; [|split; [|split; [|split]]]].
  - rewrite autoload_unfold. reflexivity.
  - intros -> H. unfold r, dispatch_setting. simpl. rewrite T.
    unfold bind. simpl. unfold and_then, this. simpl. now rewrite H.
  - intros -> H. unfold r, dispatch_setting. cbn [fst snd]. rewrite T.
    unfold bind. cbn [String.eqb Ascii.eqb Bool.eqb].
    unfold and_then at 1. unfold this at 1. cbn [completion final trace].
    rewrite H. rewrite https_dispatch_run. unfold this. cbn [completion final trace].
    destruct (write_https_options_fields (entries svc) value s') as (_ & _ & _ & N & _).
    rewrite N. unfold options, written.
    destruct (https_create_error C (https_options (entries svc) value)); reflexivity.
  - intros ->. unfold r, dispatch_setting. simpl. rewrite T.
    apply (components_scan_loop C (componentsScan svc) s').
  - intros ->. unfold r, dispatch_setting. cbn [fst snd]. rewrite T.
    unfold bind. cbn [String.eqb Ascii.eqb Bool.eqb].
    destruct (object_keys (mount_of svc)) as [keys|].
    + split; [apply forEach_final; intros; apply mount_entry_frame|]. split.
      * intros F. destruct (mount_loop C value s' F) as (Hc & _ & Hg). auto.
      * intros before k after -> F N R.
        destruct (@mount_loop_throws C value before k after s' F N R) as (Hc & _ & Hg). auto.
    + repeat split.
  - intros U. unfold recognized in U.
    repeat (apply orb_false_iff in U; destruct U as [U ?]).
    unfold r, dispatch_setting. simpl. rewrite T.
    unfold bind. now rewrite U, H1, H0, H.
Qed.

Lemma autoload_logs_then_dispatches_truthy_sample :
  dispatch_setting Sample.collaborators
    (autoload_service Sample.collaborators (VObj [("httpPort", VNum 8080)]) Sample.fresh)
    ("httpPort", VNum 8080) Sample.fresh
  = mkRun (Normal tt) (with_http_server (VNum 8080) Sample.fresh)
      [ECreateServer Http 0 VUndefined].
Proof.
  exact (proj1 (proj2 (@autoload_logs_then_dispatches_truthy Sample.collaborators
                         (VObj [("httpPort", VNum 8080)]) Sample.fresh Sample.fresh
                         "httpPort" (VNum 8080) eq_refl))
           eq_refl eq_refl).
Defined.

(** ** [startServers] *)

Lemma outcome_step l p ev rest :
  outcome l (w_state (deliver ev (mkWaiter l [] p))) rest = outcome l p (ev :: rest).
Proof.
  unfold deliver, outcome. simpl.
  destruct (Listener_eqb (fst ev) l); simpl; [|reflexivity].
  destruct p; simpl; try reflexivity. now destruct (snd ev).
Qed.

Lemma deliver_message ev l m p :
  deliver ev (mkWaiter l m p) = mkWaiter l m (w_state (deliver ev (mkWaiter l [] p))).
Proof. unfold deliver. simpl. now destruct (Listener_eqb (fst ev) l). Qed.

Ltac await_step IH ev l1 l2 a b :=
  cbn [await_all verdict first_rejected w_state forallb is_fulfilled andb map fst];
  rewrite (deliver_message ev l1), (deliver_message ev l2);
  specialize (IH (w_state (deliver ev (mkWaiter l1 [] a)))
                 (w_state (deliver ev (mkWaiter l2 [] b))));
  rewrite !outcome_step in IH; exact IH.

Lemma await_two l1 l2 m1 m2 : forall net p1 p2,
  aggregate_of (fst (await_all [mkWaiter l1 m1 p1; mkWaiter l2 m2 p2] net))
               (outcome l1 p1 net) (outcome l2 p2 net).
Proof.
  induction net as [|ev rest IH]; intros p1 p2.
  - destruct p1, p2; simpl; intuition (auto; congruence).
  - destruct p1 as [| |e1], p2 as [| |e2].
    + await_step IH ev l1 l2 Pending Pending.
    + await_step IH ev l1 l2 Pending Fulfilled.
    + simpl. now right.
    + await_step IH ev l1 l2 Fulfilled Pending.
    + simpl. auto.
    + simpl. now right.
    + simpl. now left.
    + simpl. now left.
    + simpl. now left.
Qed.

Lemma await_all_settled ws c net : verdict ws = Some c -> await_all ws net = (c, []).
Proof. intros H. destruct net; simpl; now rewrite H. Qed.

(** The order of the two promises in the array does not matter. *)
Lemma await_two_swap m1 m2 : forall net p1 p2,
  not_rejected p1 || not_rejected p2 = true ->
  fst (await_all [mkWaiter Http m1 p1; mkWaiter Https m2 p2] net)
  = fst (await_all [mkWaiter Https m2 p2; mkWaiter Http m1 p1] net).
Proof.
  induction net as [|[l sig] rest IH]; intros p1 p2 H.
  - destruct p1, p2; try discriminate; reflexivity.
  - destruct p1, p2; try discriminate; try reflexivity;
      cbn [await_all verdict first_rejected w_state forallb is_fulfilled andb map fst];
      unfold deliver; cbn [fst snd w_listener w_message w_state];
      destruct l, sig; cbn [Listener_eqb settle]; apply IH; reflexivity.
Qed.

(** The first error of the stream settles the aggregate when it comes from a
    listener that is not listening yet. *)
Lemma first_error_http m1 m2 e post : forall pre p2,
  not_rejected p2 = true ->
  (forall ev, In ev pre -> snd ev = Listening /\ fst ev <> Http) ->
  fst (await_all [mkWaiter Http m1 Pending; mkWaiter Https m2 p2]
         (pre ++ (Http, ErrorSignal e) :: post)) = Throw e.
Proof.
  induction pre as [|[l sig] pre IH]; intros p2 H Q.
  - destruct p2; try discriminate; simpl; now rewrite await_all_settled with (c := Throw e).
  - destruct (Q (l, sig) (or_introl eq_refl)) as [Hs Hl]. simpl in Hs, Hl. subst sig.
    destruct l; [congruence|].
    assert (Q' : forall ev, In ev pre -> snd ev = Listening /\ fst ev <> Http)
      by (intros ev I; apply Q; now right).
    destruct p2; try discriminate;
      cbn [app await_all verdict first_rejected w_state forallb is_fulfilled andb map fst];
      unfold deliver; cbn [fst snd w_listener w_message w_state Listener_eqb settle];
      now apply IH.
Qed.

Lemma first_error_https m1 m2 e post : forall pre p1,
  not_rejected p1 = true ->
  (forall ev, In ev pre -> snd ev = Listening /\ fst ev <> Https) ->
  fst (await_all [mkWaiter Http m1 p1; mkWaiter Https m2 Pending]
         (pre ++ (Https, ErrorSignal e) :: post)) = Throw e.
Proof.
  induction pre as [|[l sig] pre IH]; intros p1 H Q.
  - destruct p1; try discriminate; simpl; now rewrite await_all_settled with (c := Throw e).
  - destruct (Q (l, sig) (or_introl eq_refl)) as [Hs Hl]. simpl in Hs, Hl. subst sig.
    destruct l; [|congruence].
    assert (Q' : forall ev, In ev pre -> snd ev = Listening /\ fst ev <> Https)
      by (intros ev I; apply Q; now right).
    destruct p1; try discriminate;
      cbn [app await_all verdict first_rejected w_state forallb is_fulfilled andb map fst];
      unfold deliver; cbn [fst snd w_listener w_message w_state Listener_eqb settle];
      now apply IH.
Qed.

Lemma await_all_no_listen : forall net ws, count is_listen (snd (await_all ws net)) = 0.
Proof.
  assert (L : forall ev ws, count is_listen (handler_logs ev ws) = 0).
  { intros ev ws. induction ws as [|w ws IH]; [reflexivity|].
    unfold handler_logs. cbn [flat_map]. rewrite count_app.
    fold (handler_logs ev ws). rewrite IH.
    destruct (Listener_eqb (fst ev) (w_listener w)); [|reflexivity].
    now destruct (snd ev). }
  induction net as [|ev rest IH]; intros ws; simpl.
  - now destruct (verdict ws).
  - destruct (verdict ws); [reflexivity|]. cbn [snd].
    now rewrite count_app, L, IH.
Qed.

Lemma startServers_cases C net s :
  let svc := settings_service C (_settings s) in
  let ws := (match _httpServer s with Some _ => [http_waiter svc] | None => [] end)
            ++ (match _httpsServer s with Some _ => [https_waiter svc] | None => [] end) in
  completion (startServers C net s) = fst (await_all ws net)
  /\ final (startServers C net s) = s
  /\ count is_listen (trace (startServers C net s)) = listeners s.
Proof.
  intros svc ws. unfold startServers, and_then, getSettingsService, this, emit, ret.
  simpl. unfold ws, listeners, start_listener.
  destruct (_httpServer s), (_httpsServer s); simpl; repeat split;
    unfold count; simpl;
    match goal with
    | |- context [length (filter is_listen (snd (await_all ?w ?n)))] =>
        let Z := fresh in
        pose proof (await_all_no_listen n w) as Z; unfold count in Z; rewrite Z
    end; reflexivity.
Qed.

Lemma startServers_both C net s h1 h2 :
  _httpServer s = Some h1 -> _httpsServer s = Some h2 ->
  let svc := settings_service C (_settings s) in
  let r := await_all [http_waiter svc; https_waiter svc] net in
  startServers C net s =
  mkRun (fst r) s
    ([ EInjectorFactory "ServerSettingsService";
       ELog Debug [Txt "[TSED] Start HTTP server on "; Sub (fst (getHttpPort svc));
                   Txt ":"; Sub (snd (getHttpPort svc))] [];
       EListen Http h1 (snd (getHttpPort svc)) (fst (getHttpPort svc));
       EOn Http h1 "listening"; EOn Http h1 "error";
       ELog Debug [Txt "[TSED] Start HTTPs server on "; Sub (fst (getHttpsPort svc));
                   Txt ":"; Sub (snd (getHttpsPort svc))] [];
       EListen Https h2 (snd (getHttpsPort svc)) (fst (getHttpsPort svc));
       EOn Https h2 "listening"; EOn Https h2 "error" ] ++ snd r).
Proof.
  intros H1 H2 svc r. unfold startServers, and_then, getSettingsService, this, emit, ret.
  simpl. rewrite H1, H2. reflexivity.
Qed.

(** C4, as stated, fails on an error that follows the same listener's
    ["listening"]: the HTTP server starts listening and then emits an error
    while the HTTPS server is still starting; [reject] finds its promise
    already resolved, and [startServers] resolves once HTTPS listens. *)
Lemma startServers_resolves_despite_error_event :
  let net := [(Http, Listening); (Http, ErrorSignal Sample.boom); (Https, Listening)] in
  In (Http, ErrorSignal Sample.boom) net
  /\ completion (startServers Sample.collaborators net Sample.both_listeners)
     = Normal (VArr [VUndefined; VUndefined]).
Proof. simpl. split; [right; now left | reflexivity]. Qed.

(** C4, amended.  With both listeners configured, [startServers] issues both
    [listen] calls before it waits for anything.  Each listener's wait is
    decided by the first event that listener emits: [startServers] resolves
    exactly when both first events are ["listening"]; it rejects when the
    first event of either listener is an ["error"], with such an error, and with
    the first error of the stream when that error comes from a listener that
    is not yet listening.  An error a listener emits after its own
    ["listening"] is ignored.  The order of the two promises does not change
    the outcome. *)
Theorem startServers_settles_on_first_signals
    (C : Collaborators) (s : ServerLoader) (h1 h2 : nat) (net : list NetEvent) :
  _httpServer s = Some h1 -> _httpsServer s = Some h2 ->
  let r := startServers C net s in
  let promises :=
    [http_waiter (settings_service C (_settings s));
     https_waiter (settings_service C (_settings s))] in
  (completion (startServers C [] s) = Stall
   /\ count is_listen (trace (startServers C [] s)) = 2
   /\ exists logs, trace r = trace (startServers C [] s) ++ logs
                   /\ count is_listen logs = 0)
  /\ (forall v, completion r = Normal v ->
      first_signal Http net = Some Listening /\ first_signal Https net = Some Listening)
  /\ (first_signal Http net = Some Listening -> first_signal Https net = Some Listening ->
      completion r = Normal (VArr [VUndefined; VUndefined]))
  /\ (forall l e, first_signal l net = Some (ErrorSignal e) ->
      exists e', completion r = Throw e')
  /\ (forall e, completion r = Throw e ->
      exists l, first_signal l net = Some (ErrorSignal e))
  /\ (forall l e pre post,
      net = pre ++ (l, ErrorSignal e) :: post ->
      (forall ev, In ev pre -> snd ev = Listening /\ fst ev <> l) ->
      completion r = Throw e)
  /\ (completion r = fst (await_all promises net)
      /\ fst (await_all promises net) = fst (await_all (rev promises) net)).
Proof.
  intros H1 H2 r promises. unfold r.
  rewrite (@startServers_both C net s h1 h2 H1 H2), (@startServers_both C [] s h1 h2 H1 H2).
  cbv zeta. cbn [completion trace].
  set (svc := settings_service C (_settings s)) in *.
  pose proof (await_two Http Https (w_message (http_waiter svc))
                (w_message (https_waiter svc)) net Pending Pending) as A.
  change (mkWaiter Http (w_message (http_waiter svc)) Pending) with (http_waiter svc) in A.
  change (mkWaiter Https (w_message (https_waiter svc)) Pending) with (https_waiter svc) in A.
  unfold outcome in A.
  repeat split.
  - eexists. split; [reflexivity|]. apply await_all_no_listen.
  - rewrite H in A. destruct A as (_ & A & _).
    destruct (first_signal Http net) as [[|]|]; congruence.
  - rewrite H in A. destruct A as (_ & _ & A).
    destruct (first_signal Https net) as [[|]|]; congruence.
  - intros F1 F2. rewrite F1, F2 in A.
    destruct (fst (await_all [http_waiter svc; https_waiter svc] net)); simpl in A.
    + destruct A as (-> & _). reflexivity.
    + destruct A; discriminate.
    + intuition congruence.
  - intros l e F.
    destruct (fst (await_all [http_waiter svc; https_waiter svc] net)) eqn:E; simpl in A.
    + destruct A as (_ & A1 & A2). destruct l; rewrite F in *; discriminate.
    + eauto.
    + destruct l; rewrite F in *;
        intuition (try discriminate; try congruence; eauto);
        match goal with Q : forall e, _ <> Rejected e |- _ => now destruct (Q e) end.
  - intros e E. rewrite E in A. simpl in A. destruct A as [A|A].
    + exists Http. destruct (first_signal Http net) as [[|]|]; congruence.
    + exists Https. destruct (first_signal Https net) as [[|]|]; congruence.
  - intros l e pre post -> Q. destruct l.
    + apply first_error_http; [reflexivity | exact Q].
    + apply first_error_https; [reflexivity | exact Q].
  - apply await_two_swap. reflexivity.
Qed.

Lemma startServers_settles_on_first_signals_sample :
  completion (startServers Sample.collaborators
                [(Https, Listening); (Http, ErrorSignal Sample.boom)] Sample.both_listeners)
  = Throw Sample.boom.
Proof.
  refine (proj1 (proj2 (proj2 (proj2 (proj2 (proj2
            (@startServers_settles_on_first_signals Sample.collaborators
               Sample.both_listeners 0 1
               [(Https, Listening); (Http, ErrorSignal Sample.boom)]
               eq_refl eq_refl))))))
            Http Sample.boom [(Https, Listening)] [] eq_refl _).
  intros ev [<-|[]]. split; [reflexivity|discriminate].
Defined.

(** ** [start] *)

Lemma call_run K key elseFn args s :
  call K key elseFn args s =
  match hook_of K key with
  | Some h => mkRun (completion (h args s)) (final (h args s))
                    (EHook key args :: trace (h args s))
  | None => mkRun (Normal elseFn) s []
  end.
Proof. unfold call. now destruct (hook_of K key). Qed.

Lemma start_unfold C K net s :
  start C K net s =
  match completion (boot C K net s) with
  | Throw e =>
      let r := on_boot_error K e (final (boot C K net s)) in
      mkRun (completion r) (final r)
        (EInjectorFactory "ServerSettingsService" :: trace (boot C K net s) ++ trace r)
  | _ =>
      mkRun (completion (boot C K net s)) (final (boot C K net s))
        (EInjectorFactory "ServerSettingsService" :: trace (boot C K net s))
  end.
Proof.
  unfold start, and_then, getSettingsService, try_catch, emit, this, ret. simpl.
  destruct (completion (boot C K net s)) eqn:E; rewrite ?E; reflexivity.
Qed.

(** C1, as stated, fails twice.  When [$onServerInitError] itself throws,
    [start()] rejects.  When no such hook is defined, [start()] resolves with
    the fallback function instead of [undefined], and nothing is logged at
    error level: [call] returns the fallback without calling it. *)
Lemma start_rejects_or_returns_fallback :
  (completion (boot Sample.collaborators (failing_init (Some rethrow)) [] Sample.fresh)
     = Throw Sample.boom
   /\ completion (start Sample.collaborators (failing_init (Some rethrow)) [] Sample.fresh)
     = Throw Sample.boom)
  /\ (completion (boot Sample.collaborators (failing_init None) [] Sample.fresh)
     = Throw Sample.boom
   /\ completion (start Sample.collaborators (failing_init None) [] Sample.fresh)
     = Normal (VFun (FLogServerError Sample.boom))
   /\ count is_error_log
        (trace (start Sample.collaborators (failing_init None) [] Sample.fresh)) = 0).
Proof. repeat split. Qed.

(** C1, amended.  When a stage of the boot fails with [e]: if the subclass
    defines [$onServerInitError], the hook is called once, with [e], after
    which nothing else runs, and [start()] settles as the hook does: it
    resolves with [V] when the hook returns [V] and rejects when the hook
    throws.  If no such hook is defined, [start()] does not reject. *)
Theorem start_routes_boot_failure_to_error_hook
    (C : Collaborators) (K : Subclass) (net : list NetEvent) (s : ServerLoader)
    (e : JsValue) :
  completion (boot C K net s) = Throw e ->
  match onServerInitError K with
  | Some h =>
      let r := h [e] (final (boot C K net s)) in
      start C K net s =
      mkRun (completion r) (final r)
        (EInjectorFactory "ServerSettingsService"
           :: trace (boot C K net s) ++ EHook "$onServerInitError" [e] :: trace r)
      /\ (forall V, completion r = Normal V -> completion (start C K net s) = Normal V)
      /\ (forall e', completion r = Throw e' -> completion (start C K net s) = Throw e')
  | None => exists v, completion (start C K net s) = Normal v
  end.
Proof.
  intros H. rewrite start_unfold, H. unfold on_boot_error. rewrite call_run.
  unfold hook_of. simpl.
  destruct (onServerInitError K) as [h|]; simpl.
  - repeat split; auto.
  - eauto.
Qed.

Lemma start_routes_boot_failure_to_error_hook_sample :
  let K := failing_init (Some (Sample.returns (VStr "recovered"))) in
  let r := Sample.returns (VStr "recovered") [Sample.boom]
             (final (boot Sample.collaborators K [] Sample.fresh)) in
  start Sample.collaborators K [] Sample.fresh =
  mkRun (completion r) (final r)
    (EInjectorFactory "ServerSettingsService"
       :: trace (boot Sample.collaborators K [] Sample.fresh)
          ++ EHook "$onServerInitError" [Sample.boom] :: trace r)
  /\ (forall V, completion r = Normal V ->
      completion (start Sample.collaborators K [] Sample.fresh) = Normal V)
  /\ (forall e', completion r = Throw e' ->
      completion (start Sample.collaborators K [] Sample.fresh) = Throw e').
Proof.
  exact (@start_routes_boot_failure_to_error_hook Sample.collaborators
           (failing_init (Some (Sample.returns (VStr "recovered")))) []
           Sample.fresh Sample.boom eq_refl).
Defined.

Example start_with_error_hook_resolves_with_its_value :
  start Sample.collaborators (failing_init (Some (Sample.returns (VStr "recovered")))) []
    Sample.fresh
  = mkRun (Normal (VStr "recovered")) Sample.fresh
      [ EInjectorFactory "ServerSettingsService";
        EHook "$onInit" [];
        EHook "$onServerInitError" [Sample.boom] ].
Proof. reflexivity. Qed.

(** ** The four stages *)

Lemma boot_unfold C K net s :
  let r1 := stage_onInit K s in
  let r2 := initializeSettings C K (final r1) in
  let r3 := startServers C net (final r2) in
  let r4 := stage_onReady K (final r3) in
  boot C K net s =
  match completion r1 with
  | Normal _ =>
      match completion r2 with
      | Normal _ =>
          match completion r3 with
          | Normal _ =>
              mkRun (stop (completion r4)) (final r4)
                    (trace r1 ++ trace r2 ++ trace r3 ++ trace r4)
          | _ => mkRun (stop (completion r3)) (final r3) (trace r1 ++ trace r2 ++ trace r3)
          end
      | _ => mkRun (stop (completion r2)) (final r2) (trace r1 ++ trace r2)
      end
  | _ => mkRun (stop (completion r1)) (final r1) (trace r1)
  end.
Proof.
  intros r1 r2 r3 r4. unfold boot, and_then. fold r1.
  destruct (completion r1) eqn:E1; try reflexivity. fold r2.
  destruct (completion r2) eqn:E2; try reflexivity. fold r3.
  destruct (completion r3) eqn:E3; try reflexivity. fold r4.
  destruct (completion r4) eqn:E4; simpl; now rewrite ?app_nil_r.
Qed.

(** ** Optional hooks *)

Lemma inserted_weaken ev A (r0 r1 : Run A) : inserted ev r0 r1 -> at_most_inserted ev r0 r1.
Proof.
  intros (Hc & Hf & Ht). repeat split; auto.
  destruct (completion r0); auto.
Qed.

Lemma at_most_inserted_refl ev A (r : Run A) : at_most_inserted ev r r.
Proof. repeat split. now left. Qed.

Lemma inserted_here ev A B (a0 a1 : A) (k : A -> M B) (k' : M B) s :
  (forall a, k a = k') ->
  inserted ev (and_then (ret a0) k s) (and_then (and_then (emit ev) (fun _ => ret a1)) k s).
Proof.
  intros Hk. unfold inserted, and_then, emit, ret. simpl. rewrite !Hk.
  repeat split.
  destruct (completion (k' s)); [|right|right]; exists [], (trace (k' s)); auto.
Qed.

Lemma inserted_before ev A B (m : M A) (k0 k1 : A -> M B) s :
  (forall a s', inserted ev (k0 a s') (k1 a s')) ->
  inserted ev (and_then m k0 s) (and_then m k1 s).
Proof.
  intros H. unfold and_then.
  destruct (completion (m s)) as [a| |] eqn:E.
  - destruct (H a (final (m s))) as (Hc & Hf & Ht).
    unfold inserted. simpl. rewrite Hc, Hf. repeat split.
    destruct (completion (k0 a (final (m s)))).
    + destruct Ht as (pre & post & -> & ->).
      exists (trace (m s) ++ pre), post. now rewrite !app_assoc.
    + destruct Ht as [->|(pre & post & -> & ->)]; [now left|right].
      exists (trace (m s) ++ pre), post. now rewrite !app_assoc.
    + destruct Ht as [->|(pre & post & -> & ->)]; [now left|right].
      exists (trace (m s) ++ pre), post. now rewrite !app_assoc.
  - unfold inserted. simpl. repeat split. now left.
  - unfold inserted. simpl. repeat split. now left.
Qed.

Lemma inserted_after ev A B (m0 m1 : M A) (k : A -> M B) s :
  inserted ev (m0 s) (m1 s) ->
  inserted ev (and_then m0 k s) (and_then m1 k s).
Proof.
  intros (Hc & Hf & Ht). unfold inserted, and_then. rewrite Hc, Hf.
  destruct (completion (m0 s)) as [a| |]; simpl.
  - destruct Ht as (pre & post & -> & ->). repeat split.
    destruct (completion (k a (final (m0 s)))); [|right|right];
      exists pre, (post ++ trace (k a (final (m0 s))));
      now rewrite <- !app_assoc.
  - repeat split. exact Ht.
  - repeat split. exact Ht.
Qed.

Lemma at_most_inserted_before ev A B (m : M A) (k0 k1 : A -> M B) s :
  (forall a s', at_most_inserted ev (k0 a s') (k1 a s')) ->
  at_most_inserted ev (and_then m k0 s) (and_then m k1 s).
Proof.
  intros H. unfold and_then.
  destruct (completion (m s)) as [a| |] eqn:E.
  - destruct (H a (final (m s))) as (Hc & Hf & Ht).
    unfold at_most_inserted. simpl. rewrite Hc, Hf. repeat split.
    destruct Ht as [->|(pre & post & -> & ->)]; [now left|right].
    exists (trace (m s) ++ pre), post. now rewrite !app_assoc.
  - apply at_most_inserted_refl.
  - apply at_most_inserted_refl.
Qed.

Lemma at_most_inserted_try_catch ev A (b0 b1 : M A) (handler : JsValue -> M A) s :
  at_most_inserted ev (b0 s) (b1 s) ->
  at_most_inserted ev (try_catch b0 handler s) (try_catch b1 handler s).
Proof.
  intros (Hc & Hf & Ht). unfold at_most_inserted, try_catch. rewrite Hc, Hf.
  destruct (completion (b0 s)) as [a|e|] eqn:E; simpl.
  - rewrite E. auto.
  - repeat split.
    destruct Ht as [->|(pre & post & -> & ->)]; [now left|right].
    exists pre, (post ++ trace (handler e (final (b0 s)))).
    now rewrite <- !app_assoc.
  - rewrite E. auto.
Qed.

Ltac descend := repeat (apply inserted_before; intros).

Lemma boot_without_onInit C K net s v :
  inserted (EHook "$onInit" [])
    (boot C (with_hook "$onInit" None K) net s)
    (boot C (with_hook "$onInit" (Some (quiet v)) K) net s).
Proof.
  unfold boot, stage_onInit, call. cbn [hook_of with_hook onInit String.eqb Ascii.eqb Bool.eqb].
  unfold quiet.
  apply inserted_here with
    (k' := initializeSettings C K ;; startServers C net ;; stage_onReady K ;; ret VUndefined).
  reflexivity.
Qed.

Lemma boot_without_onReady C K net s v :
  inserted (EHook "$onReady" [])
    (boot C (with_hook "$onReady" None K) net s)
    (boot C (with_hook "$onReady" (Some (quiet v)) K) net s).
Proof.
  unfold boot.
  change (stage_onInit (with_hook "$onReady" None K)) with (stage_onInit K).
  change (stage_onInit (with_hook "$onReady" (Some (quiet v)) K)) with (stage_onInit K).
  change (initializeSettings C (with_hook "$onReady" None K)) with (initializeSettings C K).
  change (initializeSettings C (with_hook "$onReady" (Some (quiet v)) K))
    with (initializeSettings C K).
  descend.
  unfold stage_onReady, call. cbn [hook_of with_hook onReady String.eqb Ascii.eqb Bool.eqb].
  unfold quiet.
  apply inserted_here with (k' := ret VUndefined). reflexivity.
Qed.

Lemma initializeSettings_without_onMountingMiddlewares C K s v :
  importMiddlewares K = None ->
  inserted (EHook "$onMountingMiddlewares" [expressApp])
    (initializeSettings C (with_hook "$onMountingMiddlewares" None K) s)
    (initializeSettings C (with_hook "$onMountingMiddlewares" (Some (quiet v)) K) s).
Proof.
  intros H. unfold initializeSettings.
  cbn [with_hook importMiddlewares onMountingMiddlewares afterRoutesInit onError
       String.eqb Ascii.eqb Bool.eqb].
  rewrite H. descend. unfold invoke, quiet.
  eapply inserted_here. intros; reflexivity.
Qed.

Lemma initializeSettings_without_afterRoutesInit C K s v :
  inserted (EHook "$afterRoutesInit" [expressApp])
    (initializeSettings C (with_hook "$afterRoutesInit" None K) s)
    (initializeSettings C (with_hook "$afterRoutesInit" (Some (quiet v)) K) s).
Proof.
  unfold initializeSettings.
  cbn [with_hook importMiddlewares onMountingMiddlewares afterRoutesInit onError
       String.eqb Ascii.eqb Bool.eqb].
  descend. unfold invoke, quiet.
  eapply inserted_here. intros; reflexivity.
Qed.

Lemma boot_without_onMountingMiddlewares C K net s v :
  importMiddlewares K = None ->
  inserted (EHook "$onMountingMiddlewares" [expressApp])
    (boot C (with_hook "$onMountingMiddlewares" None K) net s)
    (boot C (with_hook "$onMountingMiddlewares" (Some (quiet v)) K) net s).
Proof.
  intros H. unfold boot.
  change (stage_onInit (with_hook "$onMountingMiddlewares" None K)) with (stage_onInit K).
  change (stage_onInit (with_hook "$onMountingMiddlewares" (Some (quiet v)) K))
    with (stage_onInit K).
  change (stage_onReady (with_hook "$onMountingMiddlewares" None K)) with (stage_onReady K).
  change (stage_onReady (with_hook "$onMountingMiddlewares" (Some (quiet v)) K))
    with (stage_onReady K).
  apply inserted_before; intros. apply inserted_after.
  now apply initializeSettings_without_onMountingMiddlewares.
Qed.

Lemma boot_shadowed_onMountingMiddlewares C K net h0 h1 h :
  importMiddlewares K = Some h ->
  boot C (with_hook "$onMountingMiddlewares" h0 K) net
  = boot C (with_hook "$onMountingMiddlewares" h1 K) net.
Proof.
  intros H. unfold boot, initializeSettings.
  cbn [with_hook importMiddlewares onMountingMiddlewares afterRoutesInit onError
       String.eqb Ascii.eqb Bool.eqb].
  rewrite H. reflexivity.
Qed.

Lemma boot_without_afterRoutesInit C K net s v :
  inserted (EHook "$afterRoutesInit" [expressApp])
    (boot C (with_hook "$afterRoutesInit" None K) net s)
    (boot C (with_hook "$afterRoutesInit" (Some (quiet v)) K) net s).
Proof.
  unfold boot.
  change (stage_onInit (with_hook "$afterRoutesInit" None K)) with (stage_onInit K).
  change (stage_onInit (with_hook "$afterRoutesInit" (Some (quiet v)) K))
    with (stage_onInit K).
  change (stage_onReady (with_hook "$afterRoutesInit" None K)) with (stage_onReady K).
  change (stage_onReady (with_hook "$afterRoutesInit" (Some (quiet v)) K))
    with (stage_onReady K).
  apply inserted_before; intros. apply inserted_after.
  apply initializeSettings_without_afterRoutesInit.
Qed.

Lemma start_at_most_inserted ev C K0 K1 net s :
  onServerInitError K1 = onServerInitError K0 ->
  at_most_inserted ev (boot C K0 net s) (boot C K1 net s) ->
  at_most_inserted ev (start C K0 net s) (start C K1 net s).
Proof.
  intros E (Hc & Hf & Ht).
  assert (Q : on_boot_error K1 = on_boot_error K0).
  { unfold on_boot_error, call, hook_of. simpl. now rewrite E. }
  rewrite !start_unfold, Hc, Hf, Q.
  destruct (completion (boot C K0 net s)) as [a|e|]; cbv zeta;
    unfold at_most_inserted; cbn [completion final trace]; repeat split;
    (destruct Ht as [->|(pre & post & -> & ->)];
     [now left | right; exists (EInjectorFactory "ServerSettingsService" :: pre)]).
  - now exists post.
  - exists (post ++ trace (on_boot_error K0 e (final (boot C K0 net s)))).
    simpl. now rewrite <- !app_assoc.
  - now exists post.
Qed.

(** ** Rejecting hooks *)

Lemma cut_short_here name args h e B (a0 : JsValue) (k : JsValue -> M B) s :
  rejecting e h ->
  cut_short name args h e
    (and_then (ret a0) k s)
    (and_then (and_then (emit (EHook name args)) (fun _ => h args)) k s).
Proof.
  intros R. right. unfold and_then, emit, ret. cbn [completion final trace].
  rewrite !R. cbn [completion final trace]. split; [reflexivity|].
  exists [], (trace (k a0 s)), s. repeat split.
Qed.

Lemma cut_short_before name args h e A B (m : M A) (k0 k1 : A -> M B) s :
  (forall a s', cut_short name args h e (k0 a s') (k1 a s')) ->
  cut_short name args h e (and_then m k0 s) (and_then m k1 s).
Proof.
  intros H. unfold and_then.
  destruct (completion (m s)) as [a| |] eqn:E.
  - destruct (H a (final (m s))) as [(Q & N)|(Hc & pre & post & s' & T0 & T1 & F)].
    + left. rewrite Q. split; [reflexivity|]. exact N.
    + right. cbn [completion final trace]. split; [exact Hc|].
      exists (trace (m s) ++ pre), post, s'. rewrite T0, T1, F.
      now rewrite !app_assoc.
  - left. split; [reflexivity | discriminate].
  - left. split; [reflexivity | discriminate].
Qed.

Lemma cut_short_after name args h e A B (m0 m1 : M A) (k : A -> M B) s :
  cut_short name args h e (m0 s) (m1 s) ->
  cut_short name args h e (and_then m0 k s) (and_then m1 k s).
Proof.
  intros [(Q & N)|(Hc & pre & post & s' & T0 & T1 & F)]; unfold and_then.
  - left. rewrite Q. split; [reflexivity|].
    destruct (completion (m0 s)) as [a| |] eqn:E; try discriminate.
    now destruct (N a).
  - right. rewrite Hc. cbn [completion final trace]. split; [reflexivity|].
    destruct (completion (m0 s)) as [a| |]; cbn [trace].
    + exists pre, (post ++ trace (k a (final (m0 s)))), s'.
      rewrite T0. now rewrite <- app_assoc.
    + exists pre, post, s'. auto.
    + exists pre, post, s'. auto.
Qed.

Lemma boot_cut_short_onInit C K net s h e :
  rejecting e h ->
  cut_short "$onInit" [] h e
    (boot C (with_hook "$onInit" None K) net s)
    (boot C (with_hook "$onInit" (Some h) K) net s).
Proof.
  intros R. unfold boot, stage_onInit, call.
  cbn [hook_of with_hook onInit String.eqb Ascii.eqb Bool.eqb].
  change (initializeSettings C (with_hook "$onInit" None K)) with (initializeSettings C K).
  change (initializeSettings C (with_hook "$onInit" (Some h) K))
    with (initializeSettings C K).
  change (stage_onReady (with_hook "$onInit" None K)) with (stage_onReady K).
  change (stage_onReady (with_hook "$onInit" (Some h) K)) with (stage_onReady K).
  now apply cut_short_here.
Qed.

Lemma boot_cut_short_onReady C K net s h e :
  rejecting e h ->
  cut_short "$onReady" [] h e
    (boot C (with_hook "$onReady" None K) net s)
    (boot C (with_hook "$onReady" (Some h) K) net s).
Proof.
  intros R. unfold boot.
  change (stage_onInit (with_hook "$onReady" None K)) with (stage_onInit K).
  change (stage_onInit (with_hook "$onReady" (Some h) K)) with (stage_onInit K).
  change (initializeSettings C (with_hook "$onReady" None K)) with (initializeSettings C K).
  change (initializeSettings C (with_hook "$onReady" (Some h) K))
    with (initializeSettings C K).
  repeat (apply cut_short_before; intros).
  unfold stage_onReady, call. cbn [hook_of with_hook onReady String.eqb Ascii.eqb Bool.eqb].
  now apply cut_short_here.
Qed.

Lemma initializeSettings_cut_short_onMountingMiddlewares C K s h e :
  rejecting e h -> importMiddlewares K = None ->
  cut_short "$onMountingMiddlewares" [expressApp] h e
    (initializeSettings C (with_hook "$onMountingMiddlewares" None K) s)
    (initializeSettings C (with_hook "$onMountingMiddlewares" (Some h) K) s).
Proof.
  intros R H. unfold initializeSettings.
  cbn [with_hook importMiddlewares onMountingMiddlewares afterRoutesInit onError
       String.eqb Ascii.eqb Bool.eqb].
  rewrite H. repeat (apply cut_short_before; intros). unfold invoke.
  now apply cut_short_here.
Qed.

Lemma initializeSettings_cut_short_afterRoutesInit C K s h e :
  rejecting e h ->
  cut_short "$afterRoutesInit" [expressApp] h e
    (initializeSettings C (with_hook "$afterRoutesInit" None K) s)
    (initializeSettings C (with_hook "$afterRoutesInit" (Some h) K) s).
Proof.
  intros R. unfold initializeSettings.
  cbn [with_hook importMiddlewares onMountingMiddlewares afterRoutesInit onError
       String.eqb Ascii.eqb Bool.eqb].
  repeat (apply cut_short_before; intros). unfold invoke.
  now apply cut_short_here.
Qed.

Lemma boot_cut_short_onMountingMiddlewares C K net s h e :
  rejecting e h -> importMiddlewares K = None ->
  cut_short "$onMountingMiddlewares" [expressApp] h e
    (boot C (with_hook "$onMountingMiddlewares" None K) net s)
    (boot C (with_hook "$onMountingMiddlewares" (Some h) K) net s).
Proof.
  intros R H. unfold boot.
  change (stage_onInit (with_hook "$onMountingMiddlewares" None K)) with (stage_onInit K).
  change (stage_onInit (with_hook "$onMountingMiddlewares" (Some h) K))
    with (stage_onInit K).
  change (stage_onReady (with_hook "$onMountingMiddlewares" None K)) with (stage_onReady K).
  change (stage_onReady (with_hook "$onMountingMiddlewares" (Some h) K))
    with (stage_onReady K).
  apply cut_short_before; intros. apply cut_short_after.
  now apply initializeSettings_cut_short_onMountingMiddlewares.
Qed.

Lemma boot_cut_short_afterRoutesInit C K net s h e :
  rejecting e h ->
  cut_short "$afterRoutesInit" [expressApp] h e
    (boot C (with_hook "$afterRoutesInit" None K) net s)
    (boot C (with_hook "$afterRoutesInit" (Some h) K) net s).
Proof.
  intros R. unfold boot.
  change (stage_onInit (with_hook "$afterRoutesInit" None K)) with (stage_onInit K).
  change (stage_onInit (with_hook "$afterRoutesInit" (Some h) K)) with (stage_onInit K).
  change (stage_onReady (with_hook "$afterRoutesInit" None K)) with (stage_onReady K).
  change (stage_onReady (with_hook "$afterRoutesInit" (Some h) K)) with (stage_onReady K).
  apply cut_short_before; intros. apply cut_short_after.
  now apply initializeSettings_cut_short_afterRoutesInit.
Qed.

(** C3. The [try] block of [start()] runs four stages, [$onInit],
    [initializeSettings], [startServers] and [$onReady], each from the receiver
    the previous one left and only once the previous one has completed; the
    calls of a run are the calls of the stages, in that order.  A stage that
    throws (or never settles) ends the block at once: no later stage
    contributes a call or a change.  On the success path [start()] resolves
    with [undefined]; an error that ends the block is handed to the [catch]
    block.  The [$onInit] and [$onReady] stages call the hook of that name
    when the subclass defines it, without arguments, and end as the hook ends;
    the [startServers] stage calls [listen] once per listener of the receiver
    and settles as the waiting for the listeners' events says.  For each of the
    optional hooks [$onInit], [$onMountingMiddlewares], [$afterRoutesInit] and
    [$onReady], a subclass that omits the hook boots like one whose hook
    returns without doing anything: same completion, same receiver, same calls
    except for the one call of the hook; and a hook that rejects ends the boot
    where it is called: the calls made are those made up to there without the
    hook, then the hook's, and the boot throws the hook's error. *)
Theorem start_runs_four_stages_in_sequence
    (C : Collaborators) (K : Subclass) (net : list NetEvent) (s : ServerLoader)
    (name : string) (v : JsValue) :
  let r1 := stage_onInit K s in
  let r2 := initializeSettings C K (final r1) in
  let r3 := startServers C net (final r2) in
  let r4 := stage_onReady K (final r3) in
  let K0 := with_hook name None K in
  let K1 := with_hook name (Some (quiet v)) K in
  boot C K net s =
    match completion r1 with
    | Normal _ =>
        match completion r2 with
        | Normal _ =>
            match completion r3 with
            | Normal _ =>
                mkRun (stop (completion r4)) (final r4)
                      (trace r1 ++ trace r2 ++ trace r3 ++ trace r4)
            | _ => mkRun (stop (completion r3)) (final r3)
                         (trace r1 ++ trace r2 ++ trace r3)
            end
        | _ => mkRun (stop (completion r2)) (final r2) (trace r1 ++ trace r2)
        end
    | _ => mkRun (stop (completion r1)) (final r1) (trace r1)
    end
  /\ (forall v', completion (boot C K net s) = Normal v' ->
      start C K net s =
      mkRun (Normal VUndefined) (final r4)
        (EInjectorFactory "ServerSettingsService"
           :: trace r1 ++ trace r2 ++ trace r3 ++ trace r4))
  /\ (In name optional_hooks ->
      at_most_inserted (EHook name (hook_args name)) (start C K0 net s) (start C K1 net s)
      /\ ((name = "$onMountingMiddlewares" -> importMiddlewares K = None) ->
          inserted (EHook name (hook_args name)) (boot C K0 net s) (boot C K1 net s)))
  /\ r1 = match onInit K with
          | Some h => mkRun (completion (h [] s)) (final (h [] s))
                        (EHook "$onInit" [] :: trace (h [] s))
          | None => mkRun (Normal (VFun FNoop)) s []
          end
  /\ r4 = match onReady K with
          | Some h => mkRun (completion (h [] (final r3))) (final (h [] (final r3)))
                        (EHook "$onReady" [] :: trace (h [] (final r3)))
          | None => mkRun (Normal (VFun FNoop)) (final r3) []
          end
  /\ (final r3 = final r2
      /\ count is_listen (trace r3) = listeners (final r2)
      /\ completion r3
         = fst (await_all
                  ((match _httpServer (final r2) with
                    | Some _ => [http_waiter (settings_service C (_settings (final r2)))]
                    | None => []
                    end)
                   ++ (match _httpsServer (final r2) with
                       | Some _ => [https_waiter (settings_service C (_settings (final r2)))]
                       | None => []
                       end)) net))
  /\ (forall e, completion (boot C K net s) = Throw e ->
      start C K net s =
      mkRun (completion (on_boot_error K e (final (boot C K net s))))
        (final (on_boot_error K e (final (boot C K net s))))
        (EInjectorFactory "ServerSettingsService"
           :: trace (boot C K net s)
              ++ trace (on_boot_error K e (final (boot C K net s)))))
  /\ (In name optional_hooks ->
      forall h e, rejecting e h ->
      (name = "$onMountingMiddlewares" -> importMiddlewares K = None) ->
      cut_short name (hook_args name) h e
        (boot C K0 net s) (boot C (with_hook name (Some h) K) net s)).
Proof.
  intros r1 r2 r3 r4 K0 K1.
  pose proof (boot_unfold C K net s) as B. cbv zeta in B. fold r1 r2 r3 r4 in B.
  split; [exact B|]. split; [|split; [|split; [|split; [|split; [|split]]]]].
  - intros v' H. rewrite start_unfold, H. rewrite B in H |- *.
    destruct (completion r1); try discriminate.
    destruct (completion r2); try discriminate.
    destruct (completion r3); try discriminate.
    destruct (completion r4); try discriminate.
    simpl in H. injection H as <-. reflexivity.
  - intros I. unfold optional_hooks in I. simpl in I.
    destruct I as [<-|[<-|[<-|[<-|[]]]]]; unfold K0, K1, hook_args; simpl.
    + split.
      * apply start_at_most_inserted; [reflexivity|].
        apply inserted_weaken, boot_without_onInit.
      * intros _. apply boot_without_onInit.
    + split.
      * apply start_at_most_inserted; [reflexivity|].
        destruct (importMiddlewares K) as [h|] eqn:E.
        -- rewrite (@boot_shadowed_onMountingMiddlewares C K net None (Some (quiet v)) h E).
           apply at_most_inserted_refl.
        -- apply inserted_weaken. now apply boot_without_onMountingMiddlewares.
      * intros E. apply boot_without_onMountingMiddlewares. now apply E.
    + split.
      * apply start_at_most_inserted; [reflexivity|].
        apply inserted_weaken, boot_without_afterRoutesInit.
      * intros _. apply boot_without_afterRoutesInit.
    + split.
      * apply start_at_most_inserted; [reflexivity|].
        apply inserted_weaken, boot_without_onReady.
      * intros _. apply boot_without_onReady.
  - unfold r1, stage_onInit. rewrite call_run. reflexivity.
  - unfold r4, stage_onReady. rewrite call_run. reflexivity.
  - destruct (startServers_cases C net (final r2)) as (Hc & Hf & Hl).
    cbv zeta in Hc. repeat split; assumption.
  - intros e H. rewrite start_unfold, H. reflexivity.
  - intros I h e R. unfold optional_hooks in I. simpl in I.
    destruct I as [<-|[<-|[<-|[<-|[]]]]]; unfold K0, hook_args; simpl; intros M.
    + now apply boot_cut_short_onInit.
    + apply boot_cut_short_onMountingMiddlewares; [exact R | now apply M].
    + now apply boot_cut_short_afterRoutesInit.
    + now apply boot_cut_short_onReady.
Qed.

(** A rejecting [$onMountingMiddlewares] ends the boot before the controllers
    are imported and before any listener is started. *)
Example start_rejecting_hook_run :
  let K := with_hook "$onMountingMiddlewares" (Some (Sample.throws Sample.boom))
             Sample.no_hooks in
  let r := boot Sample.collaborators K [(Http, Listening)] Sample.listening_on_8080 in
  completion r = Throw Sample.boom
  /\ trace r
     = [ EInjectorFactory "ServerSettingsService";
         ELog Info [Txt "[TSED] Import services"] [];
         EInjectorLoad;
         EInjectorGet "InjectorService";
         EHook "$onMountingMiddlewares" [expressApp] ].
Proof. split; reflexivity. Qed.

(** A boot with every optional hook defined: the calls of the four stages
    follow one another, then [start()] resolves with [undefined]. *)
Example start_success_run :
  let r := start Sample.collaborators every_hook
             [(Https, Listening); (Http, Listening)] Sample.both_listeners in
  completion r = Normal VUndefined
  /\ filter (fun e => match e with EHook _ _ | EListen _ _ _ _ => true | _ => false end)
       (trace r)
     = [ EHook "$onInit" [];
         EHook "$onMountingMiddlewares" [expressApp];
         EHook "$afterRoutesInit" [expressApp];
         EListen Http 0 (VNum 8080) (VStr "0.0.0.0");
         EListen Https 1 (VNum 8000) (VStr "0.0.0.0");
         EHook "$onReady" [] ].
Proof. split; reflexivity. Qed.

(** A listener error ends the boot before [$onReady]. *)
Example start_aborted_run :
  let r := start Sample.collaborators every_hook
             [(Https, Listening); (Http, ErrorSignal Sample.boom)] Sample.both_listeners in
  filter (fun e => match e with EHook _ _ | EListen _ _ _ _ => true | _ => false end)
    (trace r)
  = [ EHook "$onInit" [];
      EHook "$onMountingMiddlewares" [expressApp];
      EHook "$afterRoutesInit" [expressApp];
      EListen Http 0 (VNum 8080) (VStr "0.0.0.0");
      EListen Https 1 (VNum 8000) (VStr "0.0.0.0") ].
Proof. reflexivity. Qed.

(** The constructor applies the declared settings to a receiver without
    listeners, so each port creates its listener. *)
Example constructor_creates_both_listeners :
  let r := constructor Sample.collaborators Sample.no_hooks
             (VObj [("httpPort", VNum 8080); ("httpsPort", VNum 8000);
                    ("httpsOptions", VObj [("requestCert", VBool false)]);
                    ("debug", VBool true)]) in
  filter (fun e => is_create Http e || is_create Https e) (trace r)
  = [ ECreateServer Http 0 VUndefined;
      ECreateServer Https 1 (VObj [("requestCert", VBool false); ("port", VNum 8000)]) ]
  /\ _httpServer (final r) = Some 0
  /\ _httpsServer (final r) = Some 1.
Proof. repeat split. Qed.

(** * Further properties *)

(** ** [scan], whatever the files do *)

Lemma scan_files_order C files endpoint : forall nbFiles s,
  required_files (trace (scan_files C files endpoint nbFiles s)) = files
  /\ mapped_files (trace (scan_files C files endpoint nbFiles s))
     = filter (fun f => negb (import_fails C endpoint f)) files.
Proof.
  induction files as [|file rest IH]; intros nbFiles s; [split; reflexivity|].
  destruct (scan_files_spec C rest endpoint (S nbFiles) s) as (Hc & Hf & _).
  destruct (IH (S nbFiles) s) as (Hr & Hm).
  cbn [scan_files]. unfold and_then, log, emit, import_fails in *. simpl.
  destruct (controller_import C file endpoint) eqn:E; simpl;
    rewrite Hr, Hm; split; reflexivity.
Qed.

(** X1. [scan] never throws and never changes the receiver, however many of
    the matched files fail to load, all of them included.  It imports the
    files in the order [glob] returned them, registers exactly those whose
    import did not throw, in that order, and logs one error per failing
    file. *)
Theorem scan_imports_every_file_in_order
    (C : Collaborators) (path : string) (endpoint : JsValue) (s : ServerLoader) :
  let files := glob_sync C (replace_backslashes path) in
  let target := scan_endpoint C endpoint s in
  let r := scan C path endpoint s in
  completion r = Normal s
  /\ final r = s
  /\ required_files (trace r) = files
  /\ mapped_files (trace r) = filter (fun f => negb (import_fails C target f)) files
  /\ count is_error_log (trace r) = length (filter (import_fails C target) files)
  /\ count is_mapTo (trace r) + count is_error_log (trace r) = length files.
Proof.
  intros files target r. unfold r. rewrite scan_unfold. cbv zeta.
  cbn [completion final trace]. fold files target.
  destruct (scan_files_spec C files target 0 s) as (_ & _ & _ & He & Hm & _).
  destruct (scan_files_order C files target 0 s) as (Hr & Hp).
  unfold count, required_files, mapped_files in *. simpl.
  rewrite Hr, Hp, He, Hm. repeat split.
  pose proof (filter_length (import_fails C target) files). lia.
Qed.

(** ** The pattern handed to [glob] *)

Lemma replace_backslashes_clean path : has_backslash (replace_backslashes path) = false.
Proof.
  induction path as [|c rest IH]; [reflexivity|]. simpl.
  destruct (Ascii.eqb c backslash) eqn:E; simpl; rewrite IH, ?E; reflexivity.
Qed.

Lemma replace_backslashes_fixed path :
  has_backslash path = false -> replace_backslashes path = path.
Proof.
  induction path as [|c rest IH]; [reflexivity|]. simpl.
  destruct (Ascii.eqb c backslash); simpl; [discriminate|].
  intros H. now rewrite IH.
Qed.

(** X2. The pattern [scan] hands to [glob] holds no backslash and is as long
    as the path it was given; a path without backslashes is handed over as it
    is, so normalising twice changes nothing more.  The log line keeps the path
    as it was given. *)
Theorem scan_globs_normalised_pattern
    (C : Collaborators) (path : string) (endpoint : JsValue) (s : ServerLoader) :
  (exists rest,
     trace (scan C path endpoint s)
     = EGlob (replace_backslashes path)
         :: ELog Info [Txt ("[TSED] Scan files : " ++ path)%string] [] :: rest)
  /\ has_backslash (replace_backslashes path) = false
  /\ String.length (replace_backslashes path) = String.length path
  /\ replace_backslashes (replace_backslashes path) = replace_backslashes path
  /\ (if has_backslash path then True else replace_backslashes path = path).
Proof.
  repeat split.
  - rewrite scan_unfold. cbv zeta. cbn [trace]. eexists. reflexivity.
  - apply replace_backslashes_clean.
  - induction path as [|c rest IH]; simpl; congruence.
  - apply replace_backslashes_fixed, replace_backslashes_clean.
  - destruct (has_backslash path) eqn:E; [exact I|].
    now apply replace_backslashes_fixed.
Qed.

Example scan_windows_path :
  replace_backslashes (String backslash "ctrl" ++ String backslash "a.ts")%string
  = "/ctrl/a.ts".
Proof. reflexivity. Qed.

(** ** Loops *)


(** ** Listeners under [autoload] *)

Lemma listener_kept_untouched l get A s (r : Run A) :
  get (final r) = get s -> creates_nothing (trace r) ->
  listener_kept_or_created l get s r.
Proof.
  intros Hg Hn. unfold listener_kept_or_created.
  rewrite Hg, (creates_nothing_count l Hn). destruct (get s); auto.
Qed.

Lemma dispatch_setting_frame C svc kv s :
  _injectorService (final (dispatch_setting C svc kv s)) = _injectorService s
  /\ listener_kept_or_created Http _httpServer s (dispatch_setting C svc kv s)
  /\ listener_kept_or_created Https _httpsServer s (dispatch_setting C svc kv s).
Proof.
  assert (U : forall (r : Run unit), final r = s -> creates_nothing (trace r) ->
              _injectorService (final r) = _injectorService s
              /\ listener_kept_or_created Http _httpServer s r
              /\ listener_kept_or_created Https _httpsServer s r).
  { intros r Hf Hn. repeat split; try (apply listener_kept_untouched; auto);
      now rewrite Hf. }
  unfold dispatch_setting. destruct (truthy (snd kv)); [|apply U; [reflexivity|constructor]].
  unfold bind.
  destruct (fst kv =? "mount").
  { apply U; apply (mount_dispatch_frame C svc (snd kv) s). }
  destruct (fst kv =? "componentsScan").
  { apply U.
    - apply forEach_final. intros; apply scan_one_frame.
    - apply forEach_trace_Forall. intros; apply scan_one_frame. }
  destruct (fst kv =? "httpPort").
  { unfold and_then, this. simpl. unfold listener_kept_or_created.
    destruct (_httpServer s) eqn:E1, (_httpsServer s) eqn:E2; simpl;
      rewrite ?E1, ?E2; repeat split; auto; right; eauto. }
  destruct (fst kv =? "httpsPort").
  { rewrite https_port_run.
    destruct (write_https_options_fields (entries svc) (snd kv) s)
      as (W1 & W2 & W3 & _).
    unfold listener_kept_or_created.
    destruct (_httpsServer s) eqn:E2.
    - cbn [completion final trace]. rewrite E2.
      destruct (_httpServer s); repeat split; auto.
    - destruct (https_create_error C (https_options (entries svc) (snd kv)));
        cbn [completion final trace with_https_server _httpServer _httpsServer
             _injectorService set_settings];
        rewrite ?W1, ?W2, ?W3; destruct (_httpServer s);
        repeat split; auto; right; eauto. }
  apply U; [reflexivity|constructor].
Qed.

Lemma listener_kept_or_created_seq l get A B s (r1 : Run A) (r2 : Run B) :
  listener_kept_or_created l get s r1 ->
  listener_kept_or_created l get (final r1) r2 ->
  listener_kept_or_created l get s (mkRun (completion r2) (final r2) (trace r1 ++ trace r2)).
Proof.
  unfold listener_kept_or_created. cbn [final trace]. rewrite count_app.
  destruct (get s) as [h|].
  - intros (E1 & N1). rewrite E1. intros (E2 & N2). rewrite N1, N2. auto.
  - intros [(E1 & N1)|(h & E1 & N1)]; rewrite E1, N1.
    + intros [(E2 & N2)|(h & E2 & N2)]; rewrite N2; eauto.
    + intros (E2 & N2). rewrite N2. right. eauto.
Qed.

Lemma dispatch_loop_frame C svc es : forall s,
  _injectorService (final (forEach es (dispatch_setting C svc) s)) = _injectorService s
  /\ listener_kept_or_created Http _httpServer s (forEach es (dispatch_setting C svc) s)
  /\ listener_kept_or_created Https _httpsServer s (forEach es (dispatch_setting C svc) s).
Proof.
  induction es as [|kv rest IH]; intros s.
  - repeat split; unfold listener_kept_or_created; simpl.
    + destruct (_httpServer s); auto.
    + destruct (_httpsServer s); auto.
  - destruct (dispatch_setting_frame C svc kv s) as (Hi & Hh & Hs).
    destruct (IH (final (dispatch_setting C svc kv s))) as (Hi' & Hh' & Hs').
    cbn [forEach]. unfold and_then.
    destruct (completion (dispatch_setting C svc kv s)).
    + cbn [final]. rewrite Hi', Hi. repeat split.
      * apply listener_kept_or_created_seq; assumption.
      * apply listener_kept_or_created_seq; assumption.
    + repeat split; assumption.
    + repeat split; assumption.
Qed.

Lemma log_events_create_nothing l es :
  length (filter (is_create l) (map log_event es)) = 0.
Proof. induction es; simpl; auto. Qed.

Lemma autoload_frame C settings s :
  listener_kept_or_created Http _httpServer s (autoload C settings s)
  /\ listener_kept_or_created Https _httpsServer s (autoload C settings s)
  /\ _injectorService (final (autoload C settings s)) = _injectorService s.
Proof.
  assert (K : forall l get,
             get (autoload_receiver C settings s) = get s ->
             listener_kept_or_created l get (autoload_receiver C settings s)
               (forEach (entries (autoload_service C settings s))
                  (dispatch_setting C (autoload_service C settings s))
                  (autoload_receiver C settings s)) ->
             listener_kept_or_created l get s (autoload C settings s)).
  { intros l get Hg H. rewrite autoload_unfold. cbv zeta.
    unfold listener_kept_or_created in *. cbn [final trace]. rewrite Hg in H.
    change (ELog Info [Txt "[TSED] Autoload configuration :"] []
              :: EInjectorFactory "ServerSettingsService"
              :: map log_event (entries (autoload_service C settings s)) ++
                 trace (forEach (entries (autoload_service C settings s))
                          (dispatch_setting C (autoload_service C settings s))
                          (autoload_receiver C settings s)))
      with ((ELog Info [Txt "[TSED] Autoload configuration :"] []
              :: EInjectorFactory "ServerSettingsService"
              :: map log_event (entries (autoload_service C settings s))) ++
                 trace (forEach (entries (autoload_service C settings s))
                          (dispatch_setting C (autoload_service C settings s))
                          (autoload_receiver C settings s))).
    rewrite count_app.
    assert (Z : count (is_create l)
                  (ELog Info [Txt "[TSED] Autoload configuration :"] []
                     :: EInjectorFactory "ServerSettingsService"
                     :: map log_event (entries (autoload_service C settings s))) = 0).
    { unfold count. simpl. apply log_events_create_nothing. }
    rewrite Z. exact H. }
  destruct (dispatch_loop_frame C (autoload_service C settings s)
              (entries (autoload_service C settings s))
              (autoload_receiver C settings s)) as (Hi & Hh & Hs).
  repeat split.
  - exact (K Http _httpServer eq_refl Hh).
  - exact (K Https _httpsServer eq_refl Hs).
  - rewrite autoload_unfold. cbv zeta. cbn [final]. exact Hi.
Qed.

Lemma kept_or_created_at_most_one l get A s (r : Run A) :
  listener_kept_or_created l get s r -> count (is_create l) (trace r) <= 1.
Proof.
  unfold listener_kept_or_created. destruct (get s).
  - intros (_ & ->). lia.
  - intros [(_ & ->)|(h & _ & ->)]; lia.
Qed.

(** ** The guard of the port keys *)

Lemma dispatch_setting_guarded C svc kv l h s :
  server_of l s = Some h ->
  server_of l (final (dispatch_setting C svc kv s)) = Some h
  /\ port_setting l (final (dispatch_setting C svc kv s)) = port_setting l s
  /\ count (is_create l) (trace (dispatch_setting C svc kv s)) = 0.
Proof.
  intros H.
  assert (U : forall (r : Run unit), final r = s -> creates_nothing (trace r) ->
              server_of l (final r) = Some h
              /\ port_setting l (final r) = port_setting l s
              /\ count (is_create l) (trace r) = 0).
  { intros r Hf Hn. rewrite Hf. repeat split; auto using creates_nothing_count. }
  unfold dispatch_setting. destruct (truthy (snd kv)); [|apply U; [reflexivity|constructor]].
  unfold bind.
  destruct (fst kv =? "mount").
  { apply U; apply (mount_dispatch_frame C svc (snd kv) s). }
  destruct (fst kv =? "componentsScan").
  { apply U.
    - apply forEach_final. intros; apply scan_one_frame.
    - apply forEach_trace_Forall. intros; apply scan_one_frame. }
  destruct (fst kv =? "httpPort").
  { unfold and_then, this. cbn [completion final trace].
    destruct (_httpServer s) eqn:E1.
    - apply U; [reflexivity|constructor].
    - destruct l; [cbn [server_of] in H; congruence|].
      cbn. repeat split; [exact H|].
      unfold port_setting. cbn [port_key _settings].
      apply assoc_store_set_other. discriminate. }
  destruct (fst kv =? "httpsPort").
  { rewrite https_port_run.
    destruct (write_https_options_fields (entries svc) (snd kv) s)
      as (W1 & _ & _ & _ & W5).
    destruct (_httpsServer s) eqn:E2.
    - apply U; [reflexivity|constructor].
    - destruct l; [|cbn [server_of] in H; congruence].
      cbn [server_of] in H.
      destruct (https_create_error C (https_options (entries svc) (snd kv)));
        unfold port_setting;
        cbn [completion final trace with_https_server server_of port_key
             _httpServer _settings];
        rewrite ?W1; repeat split; try exact H; try reflexivity;
        rewrite ?assoc_store_set_other by discriminate; apply W5; discriminate. }
  apply U; [reflexivity|constructor].
Qed.

Lemma dispatch_loop_guarded C svc l h es : forall s,
  server_of l s = Some h ->
  server_of l (final (forEach es (dispatch_setting C svc) s)) = Some h
  /\ port_setting l (final (forEach es (dispatch_setting C svc) s)) = port_setting l s
  /\ count (is_create l) (trace (forEach es (dispatch_setting C svc) s)) = 0.
Proof.
  induction es as [|kv rest IH]; intros s H; [repeat split; assumption|].
  destruct (@dispatch_setting_guarded C svc kv l h s H) as (H1 & P1 & N1).
  destruct (IH _ H1) as (H2 & P2 & N2).
  cbn [forEach]. unfold and_then.
  destruct (completion (dispatch_setting C svc kv s)); cbn [final trace];
    try (repeat split; assumption).
  rewrite count_app, N1, N2, P2, P1. repeat split. exact H2.
Qed.

Lemma autoload_guarded C settings l h s :
  server_of l s = Some h ->
  server_of l (final (autoload C settings s)) = Some h
  /\ port_setting l (final (autoload C settings s))
     = assoc (port_key l) (provider_set C settings (_settings s))
  /\ count (is_create l) (trace (autoload C settings s)) = 0.
Proof.
  intros H.
  assert (H' : server_of l (autoload_receiver C settings s) = Some h)
    by (destruct l; exact H).
  destruct (@dispatch_loop_guarded C (autoload_service C settings s) l h
              (entries (autoload_service C settings s)) _ H') as (H1 & P1 & N1).
  rewrite autoload_unfold. cbv zeta. cbn [final trace].
  split; [exact H1|]. split; [exact P1|].
  change (ELog Info [Txt "[TSED] Autoload configuration :"] []
            :: EInjectorFactory "ServerSettingsService"
            :: map log_event (entries (autoload_service C settings s)) ++
               trace (forEach (entries (autoload_service C settings s))
                        (dispatch_setting C (autoload_service C settings s))
                        (autoload_receiver C settings s)))
    with ((ELog Info [Txt "[TSED] Autoload configuration :"] []
            :: EInjectorFactory "ServerSettingsService"
            :: map log_event (entries (autoload_service C settings s))) ++
               trace (forEach (entries (autoload_service C settings s))
                        (dispatch_setting C (autoload_service C settings s))
                        (autoload_receiver C settings s))).
  rewrite count_app, N1. unfold count. cbn [filter is_create length].
  rewrite log_events_create_nothing. reflexivity.
Qed.

(** C2, amended.  The listener-existence check guards the listener, not the
    port setting.  [autoload] on a receiver that already has an HTTP listener
    keeps that listener and creates no other, whatever the settings hold, yet
    its first step has already merged the new settings into the store: the
    [httpPort] setting ends as that merge left it, so a declared port replaces
    the one the listener was created with.  Likewise [httpsPort] with an HTTPS
    listener present.  A direct [createHttpServer] call is unguarded: it always
    creates one new listener, stores it in place of the previous one and
    overwrites the port setting.  A direct [createHttpsServer] call does the
    same unless [Https.createServer] throws on the options: the call then
    throws that error and leaves the receiver as it was. *)
Theorem autoload_guards_listener_creation
    (C : Collaborators) (settings : JsValue) (s : ServerLoader)
    (port options : JsValue) :
  (forall h, _httpServer s = Some h ->
     _httpServer (final (autoload C settings s)) = Some h
     /\ assoc "httpPort" (_settings (final (autoload C settings s)))
        = assoc "httpPort" (provider_set C settings (_settings s))
     /\ count (is_create Http) (trace (autoload C settings s)) = 0)
  /\ (forall h, _httpsServer s = Some h ->
     _httpsServer (final (autoload C settings s)) = Some h
     /\ assoc "httpsPort" (_settings (final (autoload C settings s)))
        = assoc "httpsPort" (provider_set C settings (_settings s))
     /\ count (is_create Https) (trace (autoload C settings s)) = 0)
  /\ (completion (createHttpServer port s) = Normal (final (createHttpServer port s))
      /\ trace (createHttpServer port s) = [ECreateServer Http (next_handle s) VUndefined]
      /\ _httpServer (final (createHttpServer port s)) = Some (next_handle s)
      /\ assoc "httpPort" (_settings (final (createHttpServer port s))) = Some port)
  /\ match https_create_error C options with
     | Some er => createHttpsServer C options s = mkRun (Throw er) s []
     | None =>
         completion (createHttpsServer C options s)
         = Normal (final (createHttpsServer C options s))
         /\ trace (createHttpsServer C options s)
            = [ECreateServer Https (next_handle s) options]
         /\ _httpsServer (final (createHttpsServer C options s)) = Some (next_handle s)
         /\ assoc "httpsPort" (_settings (final (createHttpsServer C options s)))
            = Some (get_prop options "port")
     end.
Proof.
  split; [|split; [|split]].
  - intros h H. exact (@autoload_guarded C settings Http h s H).
  - intros h H. exact (@autoload_guarded C settings Https h s H).
  - repeat split. apply assoc_store_set_same.
  - rewrite createHttpsServer_run.
    destruct (https_create_error C options); [reflexivity|].
    repeat split. apply assoc_store_set_same.
Qed.

(** On the receiver that listens on port 8080, [autoload] with
    [httpPort: 9090] keeps listener 0 and leaves 9090 as the port setting. *)
Lemma autoload_guards_listener_creation_sample :
  let r := autoload Sample.collaborators (VObj [("httpPort", VNum 9090)])
             Sample.listening_on_8080 in
  _httpServer (final r) = Some 0
  /\ assoc "httpPort" (_settings (final r)) = Some (VNum 9090)
  /\ count (is_create Http) (trace r) = 0.
Proof.
  exact (proj1 (autoload_guards_listener_creation Sample.collaborators
                  (VObj [("httpPort", VNum 9090)]) Sample.listening_on_8080
                  VUndefined VUndefined)
           0 eq_refl).
Defined.

(** X3. Whatever the settings hold, [autoload] creates at most one HTTP and
    at most one HTTPS listener, and never replaces one: a listener the receiver
    already has is still there afterwards and none of its kind was created; a
    receiver without one ends either still without one, nothing created, or
    with the single listener that was created.  [autoload] does not resolve
    the injector. *)
Theorem autoload_keeps_or_creates_one_listener
    (C : Collaborators) (settings : JsValue) (s : ServerLoader) :
  let r := autoload C settings s in
  listener_kept_or_created Http _httpServer s r
  /\ listener_kept_or_created Https _httpsServer s r
  /\ count (is_create Http) (trace r) <= 1
  /\ count (is_create Https) (trace r) <= 1
  /\ _injectorService (final r) = _injectorService s.
Proof.
  intros r. destruct (autoload_frame C settings s) as (Hh & Hs & Hi).
  repeat split; try assumption.
  - eapply kept_or_created_at_most_one; exact Hh.
  - eapply kept_or_created_at_most_one; exact Hs.
Qed.

(** ** [mount] entries without a directory string *)

(** X4. When the dispatch of [mount] reaches a declared endpoint whose entry
    in the settings value is neither a string nor a value with a [replace]
    method of its own, it throws a [TypeError] there: the endpoints before it,
    whose entries are strings, have each been scanned, that endpoint and those
    after it are not, and the receiver is unchanged. *)
Theorem mount_dispatch_stops_at_missing_directory
    (C : Collaborators) (svc : ServerSettingsService) (value : JsValue)
    (s : ServerLoader) (pre post : list string) (key : string) :
  truthy value = true ->
  object_keys (mount_of svc) = Some (pre ++ key :: post) ->
  Forall (fun k => is_string (get_prop value k) = true) pre ->
  is_string (get_prop value key) = false ->
  has_replace_method (get_prop value key) = false ->
  let r := dispatch_setting C svc ("mount", value) s in
  completion r = Throw TypeError
  /\ final r = s
  /\ count is_glob (trace r) = length pre.
Proof.
  intros T K Hpre Hkey Hrep r. unfold r, dispatch_setting. cbn [fst snd]. rewrite T.
  unfold bind. cbn [String.eqb Ascii.eqb Bool.eqb]. rewrite K.
  exact (@mount_loop_throws C value pre key post s Hpre Hkey Hrep).
Qed.

Lemma mount_dispatch_stops_at_missing_directory_sample :
  let svc := Sample.service [("mount", broken_mount)] in
  let r := dispatch_setting Sample.collaborators svc ("mount", broken_mount) Sample.fresh in
  completion r = Throw TypeError
  /\ final r = Sample.fresh
  /\ count is_glob (trace r) = 1.
Proof.
  apply (@mount_dispatch_stops_at_missing_directory Sample.collaborators
           (Sample.service [("mount", broken_mount)]) broken_mount Sample.fresh
           ["/a"] ["/c"] "/b" eq_refl eq_refl).
  - repeat constructor.
  - reflexivity.
  - reflexivity.
Defined.

(** ** [mountStaticDirectories], whatever it is given *)




(** ** Methods that only register *)


(** ** [startServers], one listener or none *)

Lemma await_one l m : forall net,
  fst (await_all [mkWaiter l m Pending] net) = decided_by l net.
Proof.
  induction net as [|[l' sig] rest IH]; [reflexivity|].
  cbn [await_all verdict first_rejected w_state forallb is_fulfilled andb map fst].
  unfold deliver, decided_by. cbn [fst snd w_listener w_message w_state first_signal].
  destruct (Listener_eqb l' l) eqn:E.
  - destruct sig; cbn [settle].
    + now rewrite await_all_settled with (c := Normal (VArr [VUndefined])).
    + now rewrite await_all_settled with (c := Throw e).
  - exact IH.
Qed.


(** X7. [startServers] calls [listen] exactly once per listener the receiver
    owns and leaves the receiver unchanged.  With no listener at all it
    resolves at once, with an empty array and without waiting for any event. *)
Theorem startServers_listens_once_per_listener
    (C : Collaborators) (net : list NetEvent) (s : ServerLoader) :
  count is_listen (trace (startServers C net s)) = listeners s
  /\ final (startServers C net s) = s
  /\ (if Nat.eqb (listeners s) 0
      then startServers C net s
           = mkRun (Normal (VArr [])) s [EInjectorFactory "ServerSettingsService"]
      else True).
Proof.
  destruct (startServers_cases C net s) as (Hc & Hf & Hl).
  repeat split; try assumption.
  unfold listeners.
  destruct (_httpServer s) eqn:E1; [exact I|].
  destruct (_httpsServer s) eqn:E2; [exact I|].
  cbn [Nat.add Nat.eqb].
  unfold startServers, and_then, getSettingsService, this, emit, ret. simpl.
  rewrite E1, E2. simpl. now destruct net.
Qed.

(** X8. With a single listener configured, [startServers] settles as that
    listener's first event says: it resolves on ["listening"], rejects with
    the error on ["error"], and never settles if the listener emits nothing.
    Events of the kind of listener that is not configured are ignored. *)
Theorem startServers_single_listener
    (C : Collaborators) (net : list NetEvent) (s : ServerLoader) (h : nat) :
  (_httpServer s = Some h /\ _httpsServer s = None
   \/ _httpServer s = None /\ _httpsServer s = Some h) ->
  completion (startServers C net s)
  = decided_by (match _httpServer s with Some _ => Http | None => Https end) net.
Proof.
  destruct (startServers_cases C net s) as (Hc & _). cbv zeta in Hc. rewrite Hc.
  intros [(-> & ->)|(-> & ->)]; cbn [app]; apply await_one.
Qed.

Lemma startServers_single_listener_sample :
  completion (startServers Sample.collaborators
                [(Https, ErrorSignal Sample.boom); (Http, Listening)]
                Sample.listening_on_8080)
  = Normal (VArr [VUndefined]).
Proof.
  exact (@startServers_single_listener Sample.collaborators
           [(Https, ErrorSignal Sample.boom); (Http, Listening)]
           Sample.listening_on_8080 0 (or_introl (conj eq_refl eq_refl))).
Defined.

(** ** The end of [initializeSettings] *)

Lemma ends_with_error_handlers_after K A (m : M A) (k : A -> M JsValue) s :
  (forall a s', ends_with_error_handlers K (k a s')) ->
  ends_with_error_handlers K (and_then m k s).
Proof.
  intros H v. unfold and_then.
  destruct (completion (m s)) as [a| |]; cbn [completion final trace]; try discriminate.
  intros E. destruct (H a (final (m s)) v E) as (-> & pre & ->).
  split; [reflexivity|]. exists (trace (m s) ++ pre). now rewrite app_assoc.
Qed.

Lemma error_handlers_run C K s :
  accepts_handlers C ->
  (match onError K with
   | Some fnError => _ <- use C [VFun (FBound fnError)] ;; ret tt
   | None => ret tt
   end ;;
   use C [VFun (FNamed "GlobalErrorHandlerMiddleware")] ;;
   ret VUndefined) s
  = mkRun (Normal VUndefined) s (error_handlers K s).
Proof.
  intros H.
  assert (U : forall f, use C [VFun f] s = mkRun (Normal s) s (use_calls [VFun f] s)).
  { intros f. apply use_run_accepted. unfold registered_args.
    destruct (_injectorService s); apply H. }
  unfold error_handlers, registration.
  destruct (onError K) as [fnError|].
  - rewrite (@and_then_run _ _
               (_ <- use C [VFun (FBound fnError)] ;; ret tt) _ s tt s
               (if _injectorService s
                then [EInjectorGet "MiddlewareService";
                      EAppUse (map wrap_arg [VFun (FBound fnError)])]
                else [EAppUse [VFun (FBound fnError)]])).
    + rewrite (@and_then_run _ _ _ _ _ _ _ _ (U _)).
      cbn [completion final trace ret]. rewrite app_nil_r. unfold use_calls.
      now destruct (_injectorService s).
    + rewrite (@and_then_run _ _ _ _ _ _ _ _ (U _)).
      cbn [completion final trace ret]. rewrite app_nil_r. unfold use_calls.
      now destruct (_injectorService s).
  - rewrite and_then_ret_tt.
    rewrite (@and_then_run _ _ _ _ _ _ _ _ (U _)).
    cbn [completion final trace ret]. rewrite app_nil_r. unfold use_calls.
    now destruct (_injectorService s).
Qed.

Lemma error_handlers_end C K s :
  ends_with_error_handlers K
    ((match onError K with
      | Some fnError => _ <- use C [VFun (FBound fnError)] ;; ret tt
      | None => ret tt
      end ;;
      use C [VFun (FNamed "GlobalErrorHandlerMiddleware")] ;;
      ret VUndefined) s).
Proof.
  intros v. unfold error_handlers, registration.
  destruct (onError K) as [fnError|];
    unfold and_then; rewrite !use_run;
    unfold unless_thrown, registered_args, use_calls, ret;
    cbn [completion final trace];
    destruct (_injectorService s) eqn:I;
    repeat match goal with
           | |- context [app_use_error C ?a] => destruct (app_use_error C a)
           end;
    cbn [completion final trace map app]; rewrite ?I; intros E; try discriminate E;
    rewrite ?app_nil_r; (split; [congruence | now exists []]).
Qed.

(** X9. When [initializeSettings] completes, it returns [undefined] and the
    last registrations on the application are the error handlers: the
    subclass's [$onError], bound to the receiver, if it defines one, and then
    the global error handler, which is therefore registered after every
    middleware, controller and static directory mounted before. *)
Theorem initializeSettings_registers_error_handlers_last
    (C : Collaborators) (K : Subclass) (s : ServerLoader) (v : JsValue) :
  completion (initializeSettings C K s) = Normal v ->
  v = VUndefined
  /\ exists pre,
       trace (initializeSettings C K s)
       = pre ++ error_handlers K (final (initializeSettings C K s)).
Proof.
  revert v. change (ends_with_error_handlers K (initializeSettings C K s)).
  unfold initializeSettings.
  do 16 (apply ends_with_error_handlers_after; intros).
  apply error_handlers_end.
Qed.

Lemma initializeSettings_registers_error_handlers_last_sample :
  VUndefined = VUndefined
  /\ exists pre,
       trace (initializeSettings Sample.collaborators Sample.no_hooks Sample.fresh)
       = pre ++ error_handlers Sample.no_hooks
                  (final (initializeSettings Sample.collaborators Sample.no_hooks
                            Sample.fresh)).
Proof.
  exact (@initializeSettings_registers_error_handlers_last Sample.collaborators
           Sample.no_hooks Sample.fresh VUndefined eq_refl).
Defined.

(** ** A boot without optional hooks *)

Ltac run_step :=
  match goal with
  | |- context [and_then ?m ?k ?s] =>
      rewrite (@and_then_run _ _ m k s _ _ _ eq_refl);
      cbn [completion final trace]
  end.

Lemma mountStaticDirectories_falsy C mountDirectories s :
  truthy mountDirectories = false ->
  mountStaticDirectories C mountDirectories s = mkRun (Normal s) s [].
Proof. intros H. unfold mountStaticDirectories. now rewrite H. Qed.

Lemma initializeSettings_plain C K s :
  importMiddlewares K = None -> onMountingMiddlewares K = None ->
  afterRoutesInit K = None ->
  injector_load_error C = None -> controller_load_error C = None ->
  truthy (serveStatic (settings_service C (_settings s))) = false ->
  accepts_handlers C ->
  initializeSettings C K s =
  mkRun (Normal VUndefined) (resolved s)
    ([ EInjectorFactory "ServerSettingsService";
       ELog Info [Txt "[TSED] Import services"] [];
       EInjectorLoad;
       EInjectorGet "InjectorService";
       EInjectorGet "ControllerService";
       EInjectorGet "RouteService";
       ELog Info [Txt "[TSED] Import controllers"] [];
       EControllerLoad;
       ELog Info [Txt "[TSED] Routes mounted :"] [];
       EPrintRoutes ] ++ error_handlers K (resolved s)).
Proof.
  intros H1 H2 H3 H4 H5 H6 H7.
  unfold initializeSettings. rewrite H1, H2, H3, H4, H5.
  do 14 run_step.
  rewrite (@and_then_run _ _ _ _ _ _ _ _
             (@mountStaticDirectories_falsy C _ (resolved s) H6)).
  cbn [completion final trace]. run_step.
  rewrite (error_handlers_run K (resolved s) H7). reflexivity.
Qed.

(** X10. In a subclass that defines none of [$onInit], [importMiddlewares],
    [$onMountingMiddlewares] and [$afterRoutesInit], with the injector and the
    controllers loading, no static directory configured and Express accepting
    the registration of the error handlers, an error with
    which [startServers] rejects reaches [$onServerInitError] as its only
    argument, on a receiver whose injector is resolved; [$onReady] is not
    called, nothing runs after the hook, and [start()] settles as the hook
    does. *)
Theorem start_hands_listener_error_to_error_hook
    (C : Collaborators) (K : Subclass) (net : list NetEvent) (s : ServerLoader)
    (e : JsValue) (h : Hook) :
  onInit K = None -> importMiddlewares K = None -> onMountingMiddlewares K = None ->
  afterRoutesInit K = None ->
  injector_load_error C = None -> controller_load_error C = None ->
  truthy (serveStatic (settings_service C (_settings s))) = false ->
  accepts_handlers C ->
  completion (startServers C net (resolved s)) = Throw e ->
  onServerInitError K = Some h ->
  let r := h [e] (resolved s) in
  start C K net s =
  mkRun (completion r) (final r)
    (EInjectorFactory "ServerSettingsService"
       :: trace (initializeSettings C K s)
          ++ trace (startServers C net (resolved s))
          ++ EHook "$onServerInitError" [e] :: trace r).
Proof.
  intros H0 H1 H2 H3 H4 H5 H6 H7 HT HE r.
  pose proof (@initializeSettings_plain C K s H1 H2 H3 H4 H5 H6 H7) as I.
  destruct (startServers_cases C net (resolved s)) as (_ & Hf & _).
  pose proof (boot_unfold C K net s) as B. cbv zeta in B.
  assert (S1 : stage_onInit K s = mkRun (Normal (VFun FNoop)) s []).
  { unfold stage_onInit. rewrite call_run. unfold hook_of. simpl. now rewrite H0. }
  rewrite S1 in B. cbn [completion final trace] in B.
  rewrite I in B. cbn [completion final trace] in B. rewrite HT in B.
  cbn [stop app] in B.
  rewrite start_unfold, B, I. cbn [completion final trace]. rewrite Hf.
  unfold on_boot_error. rewrite call_run. unfold hook_of.
  cbn [String.eqb Ascii.eqb Bool.eqb]. rewrite HE.
  unfold r. cbn [completion final trace].
  f_equal. cbn [app]. rewrite <- ?app_assoc. cbn [app]. rewrite <- ?app_assoc.
  reflexivity.
Qed.

Lemma start_hands_listener_error_to_error_hook_sample :
  let K := with_hook "$onInit" None (failing_init (Some (Sample.returns (VStr "recovered")))) in
  let net := [(Http, ErrorSignal Sample.boom)] in
  let s := Sample.listening_on_8080 in
  let r := Sample.returns (VStr "recovered") [Sample.boom] (resolved s) in
  start Sample.collaborators K net s =
  mkRun (completion r) (final r)
    (EInjectorFactory "ServerSettingsService"
       :: trace (initializeSettings Sample.collaborators K s)
          ++ trace (startServers Sample.collaborators net (resolved s))
          ++ EHook "$onServerInitError" [Sample.boom] :: trace r).
Proof.
  exact (@start_hands_listener_error_to_error_hook Sample.collaborators
           (with_hook "$onInit" None
              (failing_init (Some (Sample.returns (VStr "recovered")))))
           [(Http, ErrorSignal Sample.boom)] Sample.listening_on_8080
           Sample.boom (Sample.returns (VStr "recovered"))
           eq_refl eq_refl eq_refl eq_refl eq_refl eq_refl eq_refl (fun _ => eq_refl)
           eq_refl eq_refl).
Defined.

(** ** The constructor *)

(** X11. A freshly constructed server has its injector unresolved, so the
    middlewares registered before [start()] are not wrapped.  The constructor
    creates at most one HTTP and at most one HTTPS listener, and the receiver
    holds a listener of a kind exactly when one was created.  Without declared
    settings it makes a single call, the registration of the application, and
    only stores the bound authentication callback in the settings. *)
Theorem constructor_leaves_injector_unresolved
    (C : Collaborators) (K : Subclass) (metadata : JsValue) :
  let r := constructor C K metadata in
  _injectorService (final r) = false
  /\ match _httpServer (final r) with
     | Some _ => count (is_create Http) (trace r) = 1
     | None => count (is_create Http) (trace r) = 0
     end
  /\ match _httpsServer (final r) with
     | Some _ => count (is_create Https) (trace r) = 1
     | None => count (is_create Https) (trace r) = 0
     end
  /\ (if truthy metadata
      then True
      else r = mkRun (Normal tt)
                 (mkServerLoader
                    (store_set "authentification" (VFun (authentification K))
                       (provider_new C))
                    None None false 0)
                 [EInjectorFactory "ExpressApplication"]).
Proof.
  intros r. unfold r, constructor.
  unfold and_then, emit, modify. cbn [completion final trace].
  destruct (truthy metadata); [|repeat split].
  set (s0 := set_settings _ _).
  destruct (autoload_frame C metadata s0) as (Hh & Hs & Hi).
  unfold listener_kept_or_created in Hh, Hs.
  change (_httpServer s0) with (@None nat) in Hh.
  change (_httpsServer s0) with (@None nat) in Hs.
  cbn [app]. unfold count in *. cbn [filter is_create].
  repeat split.
  - exact Hi.
  - destruct Hh as [(-> & Z)|(h & -> & Z)]; exact Z.
  - destruct Hs as [(-> & Z)|(h & -> & Z)]; exact Z.
Qed.

(** ** The reflection helpers *)

Section UtilsFacts.

Import Utils.

Lemma class_eqb_eq a : forall b, class_eqb a b = true -> a = b.
Proof.
  induction a as [| | | | | | | | | | |n p IH]; intros [| | | | | | | | | | |m q] H;
    try discriminate; try reflexivity.
  simpl in H. apply andb_true_iff in H. destruct H as (Hn & Hp).
  apply String.eqb_eq in Hn. apply IH in Hp. now subst.
Qed.

Lemma class_eqb_refl a : class_eqb a a = true.
Proof.
  induction a; simpl; auto. now rewrite String.eqb_refl, IHa.
Qed.

Lemma derives_root c base :
  builtin base = true -> derives c base = true -> root c = base.
Proof.
  intros B. induction c as [| | | | | | | | | | |n p IH]; cbn [derives root];
    try (rewrite orb_false_r; intros H; apply class_eqb_eq in H; now subst).
  destruct base; try discriminate B; cbn [class_eqb orb]; exact IH.
Qed.

(** X12. [getClass] throws exactly on [undefined] and [null].  Otherwise it
    returns a class, and applying it again returns that class again; the one
    exception is an object without constructor, for which it returns
    [undefined].  [getClassOrSymbol] behaves the same, except that it returns a
    symbol as it is. *)
Theorem getClass_returns_a_class (t : Target) :
  match getClass t with
  | None => t = Undefined \/ t = Null
  | Some k =>
      (exists c, k = Ctor c /\ getClass k = Some k /\ getClassOrSymbol k = Some k)
      \/ (t = Bare /\ k = Undefined)
  end
  /\ getClassOrSymbol t
     = match t with
       | Sym _ => Some t
       | _ => getClass t
       end.
Proof.
  destruct t; simpl; split; auto; left; eexists; repeat split.
Qed.

(** X13. The class name of a value is the class name of its class:
    [getClassName] gives the same answer on a value and on what [getClass]
    returns for it, and throws when [getClass] does.  The exceptions are a
    symbol, named by its description, and a function without prototype, named
    by its own name although its class is [Function].  In particular an object
    is named after the class whose prototype it inherits from, which is the
    class it was built from unless that class is [Function] or extends it;
    what [new Function()] builds is a function that is its own class, named
    ["anonymous"]. *)
Theorem getClassName_is_the_name_of_the_class (t : Target) :
  match t with
  | Sym description =>
      getClassName t = Some ("Symbol(" ++ description ++ ")")%string
  | Lambda name =>
      getClassName t = Some name /\ getClass t = Some (Ctor CFunction)
  | _ =>
      getClassName t
      = match getClass t with
        | Some k => getClassName k
        | None => None
        end
  end
  /\ (forall c, getClassName (Obj c) = Some (class_name c)
               /\ typeof (Obj c) = "object"
               /\ getClass (Obj c) = Some (Ctor c))
  /\ (typeof new_Function = "function"
      /\ getClass new_Function = Some new_Function
      /\ getClassName new_Function = Some "anonymous").
Proof. destruct t; simpl; repeat split. Qed.

(** X14. [getContructor] and [getClass] agree on every value but a function
    without prototype, which [getContructor] returns as it is; and whatever
    [getContructor] returns for a value that has a constructor is a function. *)
Theorem getContructor_agrees_with_getClass (t : Target) :
  match t with
  | Lambda _ => getContructor t = Some t
  | _ => getContructor t = getClass t
  end
  /\ match getContructor t with
     | Some k => typeof k = "function" \/ t = Bare
     | None => t = Undefined \/ t = Null
     end.
Proof. destruct t; simpl; auto. Qed.

(** X15. No value is both a primitive (or primitive class) and a collection:
    [isPrimitiveOrPrimitiveClass] and [isCollection] are never true together,
    classes that extend a built-in one included.  Of the empty values, only
    the empty string is a primitive, and none is a collection. *)
Theorem primitives_and_collections_are_disjoint (t : Target) :
  isPrimitiveOrPrimitiveClass t && isCollection t = false
  /\ (if isEmpty t
      then isCollection t = false
           /\ isPrimitiveOrPrimitiveClass t
              = match t with Str _ => true | _ => false end
      else True).
Proof.
  split.
  - destruct t; try reflexivity.
    + destruct c; reflexivity.
    + unfold isPrimitiveOrPrimitiveClass, isCollection, isArrayOrArrayClass,
        instanceof, is_class, has_array_tag. simpl. rewrite !orb_false_r.
      destruct (derives c CArray) eqn:A; [|now rewrite andb_false_r].
      apply derives_root in A; [|reflexivity].
      rewrite andb_true_r.
      destruct (derives c CString) eqn:S;
        [apply derives_root in S; [congruence|reflexivity]|].
      destruct (derives c CNumber) eqn:N;
        [apply derives_root in N; [congruence|reflexivity]|].
      destruct (derives c CBoolean) eqn:B;
        [apply derives_root in B; [congruence|reflexivity]|].
      reflexivity.
  - destruct t; simpl; auto. destruct (s =? ""); auto.
Qed.

(** X16. [isCollection] recognises [Map], [Set], [WeakMap] and [WeakSet] only
    as classes, never through their instances, whereas an array is recognised
    both as the class [Array] and as an instance of it or of a class that
    extends it; nothing else is a collection.  Every value
    [isArrayOrArrayClass] accepts is a collection. *)
Theorem isCollection_classes_and_arrays (t : Target) :
  isCollection t
  = match t with
    | Ctor c =>
        class_eqb c CArray || class_eqb c CMap || class_eqb c CSet
        || class_eqb c CWeakMap || class_eqb c CWeakSet
    | Obj c => derives c CArray
    | _ => false
    end
  /\ (forall c, isCollection (Obj c) = true -> root c = CArray)
  /\ (if isArrayOrArrayClass t then isCollection t = true else True).
Proof.
  repeat split.
  - destruct t; try reflexivity.
    + unfold isCollection, isArrayOrArrayClass, is_class, has_array_tag.
      destruct (class_eqb c CArray); reflexivity.
    + unfold isCollection, isArrayOrArrayClass, is_class, has_array_tag.
      now rewrite !orb_false_r.
  - intros c H. apply derives_root; [reflexivity|].
    unfold isCollection, isArrayOrArrayClass, is_class, has_array_tag in H.
    now rewrite !orb_false_r in H.
  - unfold isCollection. destruct (isArrayOrArrayClass t); [reflexivity | exact I].
Qed.

End UtilsFacts.

(** ** The options of the HTTPS listener *)


Lemma assoc_store_replace_same key v old m :
  assoc key m = Some old -> assoc key (store_replace key v m) = Some v.
Proof.
  induction m as [|[k w] rest IH]; simpl; [discriminate|].
  destruct (k =? key) eqn:E; simpl; rewrite E; auto.
Qed.

Lemma https_options_port map value : get_prop (https_options map value) "port" = value.
Proof.
  unfold https_options, js_or, assign_fields.
  destruct (assoc "httpsOptions" map) as [v|]; [|reflexivity].
  destruct (truthy v); [|reflexivity].
  destruct v; try reflexivity; cbn [fold_left fst snd get_prop];
    now rewrite assoc_store_set_same.
Qed.

(** X17. When the dispatch of [httpsPort] creates the HTTPS listener, that
    is when the receiver has none and [Https.createServer] accepts the
    options, the options it passes carry the dispatched value as [port] and
    every other declared [httpsOptions] field as declared, a declared [port]
    being overridden; without declared [httpsOptions] the options are the port
    alone.  The port setting of the receiver becomes the dispatched value, and
    a declared [httpsOptions] object that the settings store holds is itself
    the object passed: the store holds it with the port written into it. *)
Theorem https_listener_gets_declared_options_and_port
    (C : Collaborators) (svc : ServerSettingsService) (value : JsValue)
    (s : ServerLoader) :
  truthy value = true -> _httpsServer s = None ->
  https_create_error C (https_options (entries svc) value) = None ->
  let r := dispatch_setting C svc ("httpsPort", value) s in
  exists options,
    trace r = [ECreateServer Https (next_handle s) options]
    /\ get_prop options "port" = value
    /\ (forall fields key,
          assoc "httpsOptions" (entries svc) = Some (VObj fields) ->
          key <> "port" -> get_prop options key = get_prop (VObj fields) key)
    /\ (assoc "httpsOptions" (entries svc) = None -> options = VObj [("port", value)])
    /\ assoc "httpsPort" (_settings (final r)) = Some value
    /\ final r = with_https_server options (write_https_options (entries svc) value s)
    /\ (forall fields stored,
          assoc "httpsOptions" (entries svc) = Some (VObj fields) ->
          assoc "httpsOptions" (_settings s) = Some stored ->
          assoc "httpsOptions" (_settings (final r)) = Some options).
Proof.
  intros T H A r. exists (https_options (entries svc) value).
  pose proof (https_options_port (entries svc) value) as P.
  destruct (write_https_options_fields (entries svc) value s) as (_ & _ & _ & N & _).
  assert (R : r = mkRun (Normal tt)
                    (with_https_server (https_options (entries svc) value)
                       (write_https_options (entries svc) value s))
                    [ECreateServer Https (next_handle s)
                       (https_options (entries svc) value)]).
  { unfold r, dispatch_setting. cbn [fst snd]. rewrite T.
    unfold bind. cbn [String.eqb Ascii.eqb Bool.eqb].
    rewrite https_port_run, H, A, N. reflexivity. }
  rewrite R. cbn [completion final trace].
  split; [reflexivity|]. split; [exact P|]. split; [|split; [|split; [|split]]].
  - intros fields key E K. unfold https_options, js_or, assign_fields.
    rewrite E. simpl. now rewrite assoc_store_set_other.
  - intros E. unfold https_options, js_or. now rewrite E.
  - unfold with_https_server. cbn [_settings]. rewrite P.
    apply assoc_store_set_same.
  - reflexivity.
  - intros fields stored E St. unfold with_https_server. cbn [_settings].
    rewrite assoc_store_set_other by discriminate.
    unfold write_https_options, https_options, js_or. rewrite E.
    cbn [truthy set_settings _settings].
    now apply assoc_store_replace_same with (old := stored).
Qed.

Lemma https_listener_gets_declared_options_and_port_sample :
  let declared := VObj [("requestCert", VBool false); ("port", VNum 1)] in
  let svc := Sample.service [("httpsOptions", declared)] in
  let s := mkServerLoader [("httpsOptions", declared)] None None false 0 in
  let r := dispatch_setting Sample.collaborators svc ("httpsPort", VNum 8000) s in
  exists options,
    trace r = [ECreateServer Https 0 options]
    /\ get_prop options "port" = VNum 8000
    /\ (forall fields key,
          assoc "httpsOptions" (entries svc) = Some (VObj fields) ->
          key <> "port" -> get_prop options key = get_prop (VObj fields) key)
    /\ (assoc "httpsOptions" (entries svc) = None -> options = VObj [("port", VNum 8000)])
    /\ assoc "httpsPort" (_settings (final r)) = Some (VNum 8000)
    /\ final r = with_https_server options
                   (write_https_options (entries svc) (VNum 8000) s)
    /\ (forall fields stored,
          assoc "httpsOptions" (entries svc) = Some (VObj fields) ->
          assoc "httpsOptions" (_settings s) = Some stored ->
          assoc "httpsOptions" (_settings (final r)) = Some options).
Proof.
  exact (@https_listener_gets_declared_options_and_port Sample.collaborators
           (Sample.service
              [("httpsOptions", VObj [("requestCert", VBool false); ("port", VNum 1)])])
           (VNum 8000)
           (mkServerLoader
              [("httpsOptions", VObj [("requestCert", VBool false); ("port", VNum 1)])]
              None None false 0)
           eq_refl eq_refl eq_refl).
Defined.

(** ** Middlewares registered from hooks *)

Lemma and_then_prefix A B (m : M A) (k : A -> M B) s a s1 t1 :
  m s = mkRun (Normal a) s1 t1 ->
  trace (and_then m k s) = t1 ++ trace (k a s1).
Proof. intros H. now rewrite (@and_then_run _ _ _ _ _ _ _ _ H). Qed.

Lemma registering_run C args hook_arguments s :
  registering C args hook_arguments s
  = mkRun (match app_use_error C (registered_args args s) with
           | Some er => Throw er
           | None => Normal VUndefined
           end) s (use_calls args s).
Proof.
  unfold registering, and_then. rewrite use_run. unfold unless_thrown.
  destruct (app_use_error C (registered_args args s)); cbn [completion final trace ret];
    now rewrite ?app_nil_r.
Qed.

Lemma getSettingsService_run C s :
  getSettingsService C s
  = mkRun (Normal (settings_service C (_settings s))) s
      [EInjectorFactory "ServerSettingsService"].
Proof. reflexivity. Qed.

Lemma invoke_registering_run C name args hook_arguments s :
  invoke name (Some (registering C args)) hook_arguments s
  = mkRun (match app_use_error C (registered_args args s) with
           | Some er => Throw er
           | None => Normal VUndefined
           end) s (EHook name hook_arguments :: use_calls args s).
Proof.
  unfold invoke.
  rewrite (@and_then_run _ _ _ _ s tt s [EHook name hook_arguments] eq_refl).
  now rewrite registering_run.
Qed.

Lemma and_then_trace_thrown A B (m : M A) (k : A -> M B) s e :
  completion (m s) = Throw e -> trace (and_then m k s) = trace (m s).
Proof. intros H. unfold and_then. now rewrite H. Qed.

Ltac trace_step :=
  match goal with
  | |- context [trace (and_then ?m ?k ?s)] =>
      rewrite (@and_then_prefix _ _ m k s _ _ _ eq_refl)
  end.

(** X18. A middleware registered through [use] from [$onInit] reaches the
    application wrapped or not as the injector of the receiver says, so on a
    freshly constructed receiver it is registered as it is; registered from
    [$onMountingMiddlewares] it is always wrapped by the handler builder,
    because [initializeSettings] resolves the injector before it calls that
    hook.  The [$onInit] stage ends as the hook does: normally, or with the
    error Express throws on those arguments. *)
Theorem middlewares_are_wrapped_from_onMountingMiddlewares
    (C : Collaborators) (K : Subclass) (s : ServerLoader) (args : list JsValue) :
  stage_onInit (with_hook "$onInit" (Some (registering C args)) K) s
  = mkRun (match app_use_error C (registered_args args s) with
           | Some er => Throw er
           | None => Normal VUndefined
           end) s (EHook "$onInit" [] :: use_calls args s)
  /\ match importMiddlewares K, injector_load_error C with
     | None, None =>
         exists post,
           trace (initializeSettings C
                    (with_hook "$onMountingMiddlewares" (Some (registering C args)) K) s)
           = [ EInjectorFactory "ServerSettingsService";
               ELog Info [Txt "[TSED] Import services"] [];
               EInjectorLoad;
               EInjectorGet "InjectorService";
               EHook "$onMountingMiddlewares" [expressApp];
               EInjectorGet "MiddlewareService";
               EAppUse (map wrap_arg args) ] ++ post
     | _, _ => True
     end.
Proof.
  split.
  - unfold stage_onInit. rewrite call_run.
    cbn [hook_of with_hook onInit String.eqb Ascii.eqb Bool.eqb].
    now rewrite registering_run.
  - destruct (importMiddlewares K) eqn:E1; [exact I|].
    destruct (injector_load_error C) eqn:E2; [exact I|].
    unfold initializeSettings.
    cbn [with_hook importMiddlewares onMountingMiddlewares afterRoutesInit onError
         String.eqb Ascii.eqb Bool.eqb].
    rewrite E1, E2.
    rewrite (@and_then_prefix _ _ _ _ _ _ _ _ (getSettingsService_run C s)).
    do 5 trace_step.
    match goal with
    | |- context [trace (and_then (invoke ?n _ ?a) ?k ?st)] =>
        pose proof (invoke_registering_run C n args a st) as R;
        destruct (app_use_error C (registered_args args st)) as [er|];
        [ rewrite (@and_then_trace_thrown _ _ _ k st er)
            by (rewrite R; reflexivity);
          rewrite R
        | rewrite (@and_then_prefix _ _ _ k st _ _ _ R) ]
    end;
      cbn [use_calls _injectorService final trace app];
      eexists; reflexivity.
Qed.
